(** * fake-news-detector: model loading, storage client and prediction

    A shallow embedding of the serving core of the repository:

    - [src/storage/s3_client.py]  (class [S3Client]),
    - [src/api/model_loader.py]   (class [ModelLoader]),
    - [src/api/app.py]            (the startup event and the endpoints),
    - [src/model/train.py]        ([FakeNewsTrainer.save_models]),
    - [src/model/evaluate.py]     ([FakeNewsEvaluator.__init__]).

    Python objects are records of the capabilities the code uses
    (truthiness, type name, [transform], [predict], [predict_proba]);
    [None] is [None] of [option].  Dictionaries are [gmap]s.  Exceptions
    are an explicit outcome, and methods that assign to [self] are
    computations over the loader object: an exception does not undo the
    assignments made before it, exactly as in Python.  Everything outside
    the process (the S3 backend, the local [models/] directory, the
    sklearn package, the clock) is an explicit environment [Env].

    Class probabilities are Python floats.  [predict] only compares and
    copies them, so they are modelled by rationals: every finite binary64
    value is a rational and comparison on them is exact.  A NaN has no
    counterpart; statements about the order of probabilities are about
    rows of numbers.

    Texts are Python [str]s, sequences of code points.  A [string] holds
    the UTF-8 bytes of the text and [str.strip] works on the decoded code
    points, with the whitespace of [str.isspace]. *)

From Stdlib Require Import Ascii QArith Qminmax.
From stdpp Require Import base option list strings gmap.

Local Open Scope string_scope.
Local Open Scope list_scope.

(** ** Python values *)

(** Exceptions raised or caught by the modelled code. All of them derive
    from [Exception], which is what every handler in the source catches. *)
Inductive exn : Type :=
  | KeyError (key : string)
  | IndexError
  | ValueError (msg : string)
  | AttributeError (name : string)
  | ImportError (name : string)
  | NameError (name : string)
  | ClientError (code : string)
  | EndpointConnectionError
  | UnpicklingError
  | OSError (msg : string)
  | RuntimeError (msg : string)
  | HTTPException (status_code : nat) (detail : string).

(** Result of running a piece of Python code. *)
Inductive outcome (A : Type) : Type :=
  | Ret (a : A)
  | Raise (e : exn).
Arguments Ret {A} a.
Arguments Raise {A} e.

#[export] Instance outcome_ret : MRet outcome := fun _ a => Ret a.
#[export] Instance outcome_bind : MBind outcome := fun _ _ f m =>
  match m with
  | Ret a => f a
  | Raise e => Raise e
  end.

(** [try: body / except Exception as e: handler e] for code without
    assignments. *)
Definition try_catch {A} (body : outcome A) (handler : exn → outcome A)
  : outcome A :=
  match body with
  | Ret a => Ret a
  | Raise e => handler e
  end.

Definition raises {A} (o : outcome A) : Prop :=
  match o with Ret _ => False | Raise _ => True end.

(** The feature matrix produced by a vectorizer. *)
Definition features : Type := list (list Q).

(** An object that came out of [joblib.load] or of a sklearn constructor.
    A method the object does not have is [None]: calling it raises
    [AttributeError]. *)
Record pyobj : Type := PyObj {
  type_name : string;                 (* type(o).__name__ *)
  truthy : bool;                      (* bool(o), see below *)
  transform : option (list string → outcome features);
  predict_ : option (features → outcome (list Z));          (* o.predict *)
  predict_proba : option (features → outcome (list (list Q)))
}.

(** A Python value held in an attribute: [None] or an object. *)
Definition pyval : Type := option pyobj.

(** [bool(v)], as used by [if not self.model] and [self.model and ...].
    An object whose [bool()] raises (a numpy array, say) counts as false:
    at each of these tests the enclosing handler calls the same fallback,
    on the same attributes, as the false branch does. *)
Definition truth (v : pyval) : bool :=
  match v with
  | None => false
  | Some o => truthy o
  end.

Definition type_name_of (v : pyval) : string :=
  match v with
  | None => "NoneType"
  | Some o => type_name o
  end.

(** [d[k]] on a dictionary. *)
Definition getitem {V} (d : gmap string V) (k : string) : outcome V :=
  match d !! k with
  | Some v => Ret v
  | None => Raise (KeyError k)
  end.

(** [l[i]] on a sequence, for a non-negative index. *)
Definition index {A} (l : list A) (i : nat) : outcome A :=
  match l !! i with
  | Some x => Ret x
  | None => Raise IndexError
  end.

(** [s.endswith(suffix)]. *)
Definition endswith (s suffix : string) : bool :=
  let n := String.length s in
  let k := String.length suffix in
  if decide (k ≤ n)%nat
  then bool_decide (String.substring (n - k) k s = suffix)
  else false.

(** A Python [str] is a sequence of Unicode code points. A [string] of
    this file holds the UTF-8 encoding of the text, which is also how a
    string literal of this file is read; [utf8_decode] gives the code
    points back. Bytes that are not well-formed UTF-8 (no Python [str]
    encodes to them) decode to U+FFFD, one per byte. *)
Definition continuation (n : N) : bool := (128 <=? n)%N && (n <? 192)%N.

Fixpoint utf8_decode (s : string) : list N :=
  match s with
  | EmptyString => []
  | String b0 s0 =>
      let n0 := N_of_ascii b0 in
      if (n0 <? 128)%N then n0 :: utf8_decode s0 else
      match s0 with
      | EmptyString => [65533%N]
      | String b1 s1 =>
          let n1 := N_of_ascii b1 in
          if (194 <=? n0)%N && (n0 <? 224)%N then
            if continuation n1
            then ((n0 - 192) * 64 + (n1 - 128))%N :: utf8_decode s1
            else 65533%N :: utf8_decode s0
          else
          match s1 with
          | EmptyString => 65533%N :: utf8_decode s0
          | String b2 s2 =>
              let n2 := N_of_ascii b2 in
              if (224 <=? n0)%N && (n0 <? 240)%N then
                if continuation n1 && continuation n2
                   && (negb (n0 =? 224)%N || (160 <=? n1)%N)
                   && (negb (n0 =? 237)%N || (n1 <? 160)%N)
                then ((n0 - 224) * 4096 + (n1 - 128) * 64 + (n2 - 128))%N
                       :: utf8_decode s2
                else 65533%N :: utf8_decode s0
              else
              match s2 with
              | EmptyString => 65533%N :: utf8_decode s0
              | String b3 s3 =>
                  let n3 := N_of_ascii b3 in
                  if (240 <=? n0)%N && (n0 <? 245)%N
                     && continuation n1 && continuation n2 && continuation n3
                     && (negb (n0 =? 240)%N || (144 <=? n1)%N)
                     && (negb (n0 =? 244)%N || (n1 <? 144)%N)
                  then ((n0 - 240) * 262144 + (n1 - 128) * 4096
                        + (n2 - 128) * 64 + (n3 - 128))%N :: utf8_decode s3
                  else 65533%N :: utf8_decode s0
              end
          end
      end
  end.

(** [str.isspace] on one code point: U+0009..U+000D, U+001C..U+0020,
    U+0085, U+00A0, U+1680, U+2000..U+200A, U+2028, U+2029, U+202F,
    U+205F and U+3000. *)
Definition isspace (c : N) : bool :=
  ((9 <=? c) && (c <=? 13) || (28 <=? c) && (c <=? 32)
   || (c =? 133) || (c =? 160) || (c =? 5760)
   || (8192 <=? c) && (c <=? 8202)
   || (c =? 8232) || (c =? 8233) || (c =? 8239) || (c =? 8287)
   || (c =? 12288))%N.

Fixpoint lstrip (s : list N) : list N :=
  match s with
  | [] => []
  | c :: s' => if isspace c then lstrip s' else s
  end.

Definition rstrip (s : list N) : list N :=
  List.rev (lstrip (List.rev s)).

(** [s.strip()], as the code points of the result. *)
Definition strip (s : string) : list N := rstrip (lstrip (utf8_decode s)).

(** [bool(s)] for a string. *)
Definition str_truth (s : list N) : bool :=
  match s with
  | [] => false
  | _ :: _ => true
  end.

(** ** The environment *)

(** What [joblib.load] finds in a file or a downloaded object. *)
Inductive blob : Type :=
  | Corrupt                       (* joblib.load raises *)
  | Pickled (v : pyval).          (* joblib.load returns v *)

Definition joblib_load (b : blob) : outcome pyval :=
  match b with
  | Corrupt => Raise UnpicklingError
  | Pickled v => Ret v
  end.

(** An entry of the local models directory. A dangling symbolic link is
    listed by [os.listdir] but [os.path.exists] is false for it. *)
Inductive node : Type :=
  | Dangling
  | File (b : blob).

Inductive local_dir : Type :=
  | NoDir                                  (* os.path.exists is false *)
  | NotListable                            (* os.listdir raises *)
  | Dir (entries : list (string * node)).  (* in os.listdir order *)

(** The sklearn package as seen by [_load_dummy_model]. Fitting mutates
    the estimator, so a fit returns the fitted object. *)
Record sklearn_pkg : Type := Sklearn {
  LogisticRegression : outcome pyobj;
  TfidfVectorizer : nat → outcome pyobj;          (* max_features *)
  fit_transform : pyobj → list string → outcome (pyobj * features);
  fit : pyobj → features → list Z → outcome pyobj
}.

(** The boto3 S3 client: each call either returns or raises (a
    [ClientError] with the backend's error code, a connection error, ...).
    [download_file] gives the content written to the local path;
    [list_objects_v2] gives the ['Contents'] keys of the response, [None]
    when the response has no ['Contents'] entry. *)
Module boto3.
Record s3 : Type := S3 {
  create_bucket : string → outcome unit;
  upload_file : blob → string → string → outcome unit;
  download_file : string → string → outcome blob;
  list_objects_v2 : string → string → outcome (option (list string));
  delete_object : string → string → outcome unit;
  list_buckets : outcome (list string)
}.
End boto3.

Record Env : Type := MkEnv {
  (* [boto3.client('s3', endpoint_url=...)] *)
  boto3_client : string → outcome boto3.s3;
  (* [joblib.dump] into a fresh temporary file *)
  joblib_dump : pyval → outcome blob;
  (* did `from storage.s3_client import S3Client` succeed *)
  S3Client_importable : bool;
  (* os.path.join(os.path.dirname(__file__), '..', '..', 'models') *)
  models_dir : string;
  models_dir_content : local_dir;
  (* None: `from sklearn... import` raises *)
  sklearn : option sklearn_pkg;
  (* the two readings of datetime.now() a successful load makes: the
     first goes into model_info['loaded_at'], the next into last_loaded *)
  now_loaded_at : nat;
  now : nat
}.

(** ** [src/storage/s3_client.py] *)

Module S3Client.

(** The object: [self.s3_client]. *)
Record t : Type := Make { s3_client : boto3.s3 }.

(** [__init__]: logs and re-raises whatever [boto3.client] raises. *)
Definition init (E : Env) (endpoint_url : string) : outcome t :=
  try_catch
    (c ← boto3_client E endpoint_url; Ret (Make c))
    (fun e => Raise e).

(** [create_bucket]: only [ClientError] is caught. *)
Definition create_bucket (self : t) (bucket_name : string) : outcome bool :=
  match boto3.create_bucket (s3_client self) bucket_name with
  | Ret _ => Ret true
  | Raise (ClientError error_code) =>
      if bool_decide (error_code = "BucketAlreadyExists")
      then Ret true
      else Ret false
  | Raise e => Raise e
  end.

(** [upload_model]: dump to a temporary file, upload it, unlink it. *)
Definition upload_model (E : Env) (self : t) (model_object : pyval)
    (bucket_name object_key : string) : outcome bool :=
  try_catch
    (tmp_file ← joblib_dump E model_object;
     _ ← boto3.upload_file (s3_client self) tmp_file bucket_name object_key;
     Ret true)
    (fun e => Ret false).

(** [download_model] with [local_path=None]: the temporary file is
    created, filled by [download_file], read by [joblib.load] and
    unlinked. Any exception gives [None]. *)
Definition download_model (self : t) (bucket_name object_key : string)
    : outcome pyval :=
  try_catch
    (tmp_file ← boto3.download_file (s3_client self) bucket_name object_key;
     model ← joblib_load tmp_file;
     Ret model)
    (fun e => Ret None).

Definition list_models (self : t) (bucket_name : string) (prefix : string)
    : outcome (list string) :=
  try_catch
    (response ← boto3.list_objects_v2 (s3_client self) bucket_name prefix;
     match response with
     | Some contents => Ret contents
     | None => Ret []
     end)
    (fun e => Ret []).

Definition delete_model (self : t) (bucket_name object_key : string)
    : outcome bool :=
  try_catch
    (_ ← boto3.delete_object (s3_client self) bucket_name object_key;
     Ret true)
    (fun e => Ret false).

Definition check_connection (self : t) : outcome bool :=
  try_catch
    (_ ← boto3.list_buckets (s3_client self); Ret true)
    (fun e => Ret false).

End S3Client.

(** ** Local files *)

(** [os.path.join(a, b)] for a relative [b]. *)
Definition path_join (a b : string) : string := a +:+ "/" +:+ b.

Fixpoint find_entry (entries : list (string * node)) (name : string)
  : option node :=
  match entries with
  | [] => None
  | (n, x) :: rest =>
      if bool_decide (n = name) then Some x else find_entry rest name
  end.

(** [os.listdir(models_dir)] *)
Definition listdir (d : local_dir) : outcome (list string) :=
  match d with
  | NoDir => Raise (OSError "FileNotFoundError")
  | NotListable => Raise (OSError "NotADirectoryError")
  | Dir entries => Ret (entries.*1)
  end.

(** [os.path.exists(models_dir)] *)
Definition dir_exists (d : local_dir) : bool :=
  match d with
  | NoDir => false
  | _ => true
  end.

(** [os.path.exists(os.path.join(models_dir, name))] *)
Definition file_exists (d : local_dir) (name : string) : bool :=
  match d with
  | Dir entries =>
      match find_entry entries name with
      | Some (File _) => true
      | _ => false
      end
  | _ => false
  end.

(** [joblib.load(os.path.join(models_dir, name))] *)
Definition load_file (d : local_dir) (name : string) : outcome pyval :=
  match d with
  | Dir entries =>
      match find_entry entries name with
      | Some (File b) => joblib_load b
      | _ => Raise (OSError "FileNotFoundError")
      end
  | _ => Raise (OSError "FileNotFoundError")
  end.

(** ** [src/api/model_loader.py] *)

(** Values stored in the [model_info] dictionary. *)
Inductive info_value : Type :=
  | IStr (s : string)
  | ITime (t : nat).               (* datetime.now().isoformat() *)

Module ModelLoader.

(** The attributes of a [ModelLoader] object. *)
Record t : Type := Make {
  s3_config : gmap string string;
  s3_client : option S3Client.t;
  model : pyval;
  vectorizer : pyval;
  model_info : gmap string info_value;
  last_loaded : option nat
}.

(** The three coroutines of the fallback chain. *)
Inductive method : Type :=
  | M_load_model
  | M_load_local_fallback
  | M_load_dummy_model.

#[export] Instance method_eq_dec : EqDecision method.
Proof. solve_decision. Defined.

(** A running method sees the object and, as a ghost, the chain methods
    entered so far (oldest first), each with the attributes it found on
    entry. *)
Record frame : Type := Frame {
  self : t;
  entered : list (method * t)
}.

(** Code that may assign to [self] and may raise. *)
Definition py (A : Type) : Type := frame → outcome A * frame.

#[export] Instance py_ret : MRet py := fun _ a fr => (Ret a, fr).
#[export] Instance py_bind : MBind py := fun _ _ f m fr =>
  match m fr with
  | (Ret a, fr') => f a fr'
  | (Raise e, fr') => (Raise e, fr')
  end.

(** An expression that does not touch [self]. *)
Definition eval {A} (o : outcome A) : py A := fun fr => (o, fr).

(** Reading the attributes. *)
Definition get : py t := fun fr => (Ret (self fr), fr).

(** [try: body / except Exception as e: handler e]: the handler runs
    on the object as the failed body left it. *)
Definition try_except {A} (body : py A) (handler : exn → py A) : py A :=
  fun fr =>
    match body fr with
    | (Ret a, fr') => (Ret a, fr')
    | (Raise e, fr') => handler e fr'
    end.

(** Ghost: a chain method is entered. *)
Definition enter (m : method) : py unit := fun fr =>
  (Ret (), Frame (self fr) (entered fr ++ [(m, self fr)])).

(** Attribute assignments. *)
Definition set_model (v : pyval) : py unit := fun fr =>
  let s := self fr in
  (Ret (), Frame (Make (s3_config s) (s3_client s) v (vectorizer s)
                       (model_info s) (last_loaded s)) (entered fr)).

Definition set_vectorizer (v : pyval) : py unit := fun fr =>
  let s := self fr in
  (Ret (), Frame (Make (s3_config s) (s3_client s) (model s) v
                       (model_info s) (last_loaded s)) (entered fr)).

Definition set_model_info (i : gmap string info_value) : py unit := fun fr =>
  let s := self fr in
  (Ret (), Frame (Make (s3_config s) (s3_client s) (model s) (vectorizer s)
                       i (last_loaded s)) (entered fr)).

Definition set_last_loaded (d : nat) : py unit := fun fr =>
  let s := self fr in
  (Ret (), Frame (Make (s3_config s) (s3_client s) (model s) (vectorizer s)
                       (model_info s) (Some d)) (entered fr)).

(** [__init__] *)
Definition init (E : Env) (s3_config : gmap string string) : t :=
  let s3_client :=
    if S3Client_importable E then
      match (endpoint_url ← getitem s3_config "endpoint_url";
             S3Client.init E endpoint_url) with
      | Ret c => Some c
      | Raise _ => None
      end
    else None in
  Make s3_config s3_client None None ∅ None.

(** The imports at the head of [_load_dummy_model]. *)
Definition import_sklearn (E : Env) : outcome sklearn_pkg :=
  match sklearn E with
  | Some sk => Ret sk
  | None => Raise (ImportError "sklearn")
  end.

Definition dummy_texts : list string :=
  ["This is real news"; "This is fake news"; "Another real story"].

Definition dummy_labels : list Z := [0; 1; 0]%Z.

(** [_load_dummy_model] *)
Definition _load_dummy_model (E : Env) : py bool :=
  enter M_load_dummy_model;;
  try_except
    (sk ← eval (import_sklearn E);
     (* self.model = LogisticRegression() *)
     m ← eval (LogisticRegression sk);
     set_model (Some m);;
     (* self.vectorizer = TfidfVectorizer(max_features=100) *)
     v ← eval (TfidfVectorizer sk 100);
     set_vectorizer (Some v);;
     (* X_dummy = self.vectorizer.fit_transform(dummy_texts) *)
     '(v_fitted, X_dummy) ← eval (fit_transform sk v dummy_texts);
     set_vectorizer (Some v_fitted);;
     (* self.model.fit(X_dummy, dummy_labels) *)
     m_fitted ← eval (fit sk m X_dummy dummy_labels);
     set_model (Some m_fitted);;
     set_model_info
       (<["source" := IStr "dummy"]>
        (<["loaded_at" := ITime (now_loaded_at E)]>
        (<["model_type" := IStr "DummyLogisticRegression"]>
        (<["warning" := IStr "Este é um modelo dummy para desenvolvimento"]>
         ∅))));;
     set_last_loaded (now E);;
     mret true)
    (fun e => mret false).

(** [_load_local_fallback] *)
Definition _load_local_fallback (E : Env) : py bool :=
  enter M_load_local_fallback;;
  try_except
    (let d := models_dir_content E in
     if negb (dir_exists d) then _load_dummy_model E else
     names ← eval (listdir d);
     let model_files := List.filter (fun f => endswith f ".joblib") names in
     match model_files with
     | [] => _load_dummy_model E
     | first_file :: _ =>
         let model_path := path_join (models_dir E) first_file in
         let vectorizer_path := path_join (models_dir E) "vectorizer.joblib" in
         (if file_exists d first_file
          then m ← eval (load_file d first_file); set_model m
          else mret ());;
         (if file_exists d "vectorizer.joblib"
          then v ← eval (load_file d "vectorizer.joblib"); set_vectorizer v
          else mret ());;
         s ← get;
         if truth (model s) && truth (vectorizer s) then
           set_model_info
             (<["source" := IStr "local"]>
              (<["model_path" := IStr model_path]>
              (<["vectorizer_path" := IStr vectorizer_path]>
              (<["loaded_at" := ITime (now_loaded_at E)]>
              (<["model_type" := IStr (type_name_of (model s))]> ∅)))));;
           set_last_loaded (now E);;
           mret true
         else _load_dummy_model E
     end)
    (fun e => _load_dummy_model E).

(** [load_model] *)
Definition load_model (E : Env) : py bool :=
  enter M_load_model;;
  try_except
    (s ← get;
     match s3_client s with
     | None => _load_local_fallback E
     | Some client =>
         bucket_name ← eval (getitem (s3_config s) "bucket_name");
         model_key ← eval (getitem (s3_config s) "model_key");
         vectorizer_key ← eval (getitem (s3_config s) "vectorizer_key");
         (* self.model = self.s3_client.download_model(...) *)
         m ← eval (S3Client.download_model client bucket_name model_key);
         set_model m;;
         (* if not self.model *)
         if negb (truth m) then _load_local_fallback E else
         (* self.vectorizer = self.s3_client.download_model(...) *)
         v ← eval (S3Client.download_model client bucket_name vectorizer_key);
         set_vectorizer v;;
         (* if not self.vectorizer *)
         if negb (truth v) then _load_local_fallback E else
         set_model_info
           (<["source" := IStr "s3"]>
            (<["bucket" := IStr bucket_name]>
            (<["model_key" := IStr model_key]>
            (<["vectorizer_key" := IStr vectorizer_key]>
            (<["loaded_at" := ITime (now_loaded_at E)]>
            (<["model_type" := IStr (type_name_of m)]> ∅))))));;
         set_last_loaded (now E);;
         mret true
     end)
    (fun e => _load_local_fallback E).

(** [reload_model] *)
Definition reload_model (E : Env) : py bool := load_model E.

(** Running a method on an object, from an empty ghost trace. *)
Definition run {A} (c : py A) (s : t) : outcome A * frame := c (Frame s []).

(** [is_model_loaded] *)
Definition is_model_loaded (s : t) : bool :=
  bool_decide (model s ≠ None) && bool_decide (vectorizer s ≠ None).

(** The dictionaries returned by [predict]; the batch endpoint adds an
    ["error"] key to the entries it builds itself. *)
Record result : Type := Result {
  prediction : string;
  confidence : Q;
  probabilities : gmap string Q;
  error : option string
}.

(** [o.name(x)] on an attribute value. *)
Definition call_method {A B} (v : pyval) (name : string)
    (meth : pyobj → option (A → outcome B)) (x : A) : outcome B :=
  match v with
  | Some o =>
      match meth o with
      | Some f => f x
      | None => Raise (AttributeError name)
      end
  | None => Raise (AttributeError name)
  end.

(** Python's [a > b] on floats that are numbers. Probabilities are
    rationals here: a NaN, which no comparison orders, has no counterpart,
    and what is proved about the order of confidences is about rows of
    numbers. *)
Definition gt (a b : Q) : bool := negb (Qle_bool a b).

(** Python's [max] over a sequence: the first item stays unless a
    later one is greater. *)
Definition max (l : list Q) : outcome Q :=
  match l with
  | [] => Raise (ValueError "max() arg is an empty sequence")
  | x :: rest =>
      Ret (fold_left (fun max_item item =>
                        if gt item max_item then item else max_item) rest x)
  end.

(** [predict]. The text of the caught exception, which the source
    appends to the message of the [RuntimeError], is left out. *)
Definition predict (s : t) (text : string) : outcome result :=
  if negb (is_model_loaded s) then
    Raise (RuntimeError "Modelo não está carregado")
  else
    try_catch
      (text_vectorized ←
         call_method (vectorizer s) "transform" transform [text];
       predictions ← call_method (model s) "predict" predict_ text_vectorized;
       prediction ← index predictions 0;
       probas ←
         call_method (model s) "predict_proba" predict_proba text_vectorized;
       probabilities ← index probas 0;
       let prediction_label :=
         if bool_decide (prediction = 1%Z) then "fake" else "real" in
       confidence ← max probabilities;
       p_real ← index probabilities 0;
       p_fake ← index probabilities 1;
       Ret (Result prediction_label confidence
                   (<["real" := p_real]> (<["fake" := p_fake]> ∅)) None))
      (fun e => Raise (RuntimeError "Erro na predição")).

(** The dictionary returned by [get_model_info]: [{"status":
    "no_model"}], or the three keys ["status": "loaded"], ["info"] and
    ["last_loaded"]. *)
Inductive info_report : Type :=
  | NoModel
  | LoadedInfo (info : gmap string info_value) (last : option nat).

Definition report_status (r : info_report) : string :=
  match r with
  | NoModel => "no_model"
  | LoadedInfo _ _ => "loaded"
  end.

(** [get_model_info] *)
Definition get_model_info (s : t) : info_report :=
  if negb (is_model_loaded s) then NoModel
  else LoadedInfo (model_info s) (last_loaded s).

(** [create_model_loader] *)
Definition create_model_loader (E : Env) (s3_endpoint bucket_name : string)
  : t :=
  let s3_config : gmap string string :=
    <["endpoint_url" := s3_endpoint]>
    (<["bucket_name" := bucket_name]>
    (<["model_key" := "models/best_model.joblib"]>
    (<["vectorizer_key" := "models/vectorizer.joblib"]> ∅))) in
  init E s3_config.

End ModelLoader.

(** ** [src/api/app.py] *)

Module app.

Import ModelLoader.

(** [try: body / except HTTPException: raise / except Exception: raise
    HTTPException(500, detail)] *)
Definition endpoint {A} (body : outcome A) (detail : string) : outcome A :=
  try_catch body
    (fun e =>
       match e with
       | HTTPException _ _ => Raise e
       | _ => Raise (HTTPException 500 detail)
       end).

(** [not model_loader or not model_loader.is_model_loaded()] on the
    module-level [model_loader]. *)
Definition unavailable (model_loader : option ModelLoader.t) : bool :=
  match model_loader with
  | None => true
  | Some ml => negb (is_model_loaded ml)
  end.

(** The object behind [model_loader.predict]. *)
Definition the_loader (model_loader : option ModelLoader.t)
  : outcome ModelLoader.t :=
  match model_loader with
  | Some ml => Ret ml
  | None => Raise (AttributeError "predict")
  end.

(** [POST /predict] *)
Definition predict_fake_news (model_loader : option ModelLoader.t)
    (text : string) : outcome result :=
  endpoint
    (if unavailable model_loader then
       Raise (HTTPException 503
                "Modelo não está disponível. Tente novamente mais tarde.")
     else if negb (str_truth (strip text)) then
       Raise (HTTPException 400 "Texto da notícia não pode estar vazio")
     else
       ml ← the_loader model_loader;
       result ← predict ml text;
       Ret (Result (prediction result) (confidence result)
                   (probabilities result) None))
    "Erro interno na predição".

(** The entry appended for a blank text. *)
Definition empty_text_entry : result :=
  Result "error" 0 (<["real" := 0%Q]> (<["fake" := 0%Q]> ∅))
         (Some "Texto vazio").

(** The [for text in texts] loop, appending to [results]. *)
Fixpoint batch_loop (ml : ModelLoader.t) (texts : list string)
    (results : list result) : outcome (list result) :=
  match texts with
  | [] => Ret results
  | text :: rest =>
      if str_truth (strip text) then
        result ← predict ml text;
        batch_loop ml rest (results ++ [result])
      else
        batch_loop ml rest (results ++ [empty_text_entry])
  end.

(** [POST /batch_predict]; the value is the ["predictions"] list. *)
Definition batch_predict (model_loader : option ModelLoader.t)
    (texts : list string) : outcome (list result) :=
  endpoint
    (if unavailable model_loader then
       Raise (HTTPException 503 "Modelo não está disponível")
     else if (100 <? length texts)%nat then
       Raise (HTTPException 400 "Máximo de 100 textos por requisição")
     else
       ml ← the_loader model_loader;
       batch_loop ml texts [])
    "Erro interno na predição em lote".

(** [HealthResponse] *)
Record HealthResponse : Type := Health {
  status : string;
  message : string
}.

(** [os.getenv(name, default)] *)
Definition getenv (environ : gmap string string) (name default : string)
  : string :=
  match environ !! name with
  | Some value => value
  | None => default
  end.

(** Lines 18-22, at import time: one [try] imports [S3Client] and then
    [ModelLoader], and its handler only logs the [ImportError]. When the
    first import raises, the second never runs and the name [ModelLoader]
    stays unbound: using it raises [NameError]. *)
Definition imported_ModelLoader (E : Env)
  : outcome (gmap string string → ModelLoader.t) :=
  if S3Client_importable E then Ret (ModelLoader.init E)
  else Raise (NameError "ModelLoader").

(** [startup_event]: the value is the module-level [model_loader] it
    leaves, [None] at first. The whole body runs under
    [try: ... except Exception], which only logs. The global is bound
    before [load_model] is awaited, so once the constructor has returned
    it holds the loader whatever the load does. *)
Definition startup_event (E : Env) (environ : gmap string string)
  : option ModelLoader.t :=
  let s3_config : gmap string string :=
    <["endpoint_url" := getenv environ "S3_ENDPOINT" "http://localhost:4566"]>
    (<["bucket_name" := getenv environ "S3_BUCKET" "fake-news-models"]>
    (<["model_key" := getenv environ "MODEL_KEY" "models/best_model.joblib"]>
    (<["vectorizer_key" :=
         getenv environ "VECTORIZER_KEY" "models/vectorizer.joblib"]> ∅))) in
  match imported_ModelLoader E with
  | Raise _ => None
  | Ret ModelLoader =>
      let model_loader := ModelLoader s3_config in
      match run (load_model E) model_loader with
      | (Ret _, fr) => Some (self fr)
      | (Raise _, fr) => Some (self fr)
      end
  end.

(** [GET /] *)
Definition root : outcome HealthResponse :=
  Ret (Health "ok" "Fake News Detector API está funcionando").

(** [GET /health] *)
Definition health_check (model_loader : option ModelLoader.t)
  : outcome HealthResponse :=
  try_catch
    (if negb (unavailable model_loader) then
       Ret (Health "healthy" "API e modelo estão funcionando corretamente")
     else
       Ret (Health "degraded" "API funcionando, mas modelo não carregado"))
    (fun e => Raise (HTTPException 500 "Erro interno do servidor")).

(** The two dictionaries [GET /model/info] can answer. *)
Inductive model_info_response : Type :=
  | NoModelLoaded (message : string)
  | ModelLoaded (model_info : info_report).

(** [GET /model/info] *)
Definition get_model_info (model_loader : option ModelLoader.t)
  : outcome model_info_response :=
  try_catch
    (if unavailable model_loader then
       Ret (NoModelLoaded "Nenhum modelo carregado")
     else
       ml ← the_loader model_loader;
       Ret (ModelLoaded (ModelLoader.get_model_info ml)))
    (fun e =>
       Raise (HTTPException 500 "Erro ao obter informações do modelo")).

(** [POST /model/reload]: the answer, and the loader object afterwards.
    The only handler is [except Exception], which also catches the
    [HTTPException] raised in the body. *)
Definition reload_model (E : Env) (model_loader : option ModelLoader.t)
  : outcome string * option ModelLoader.t :=
  let handler (e : exn) : outcome string :=
    Raise (HTTPException 500 "Erro ao recarregar modelo") in
  match model_loader with
  | None =>
      (try_catch
         (Raise (HTTPException 503 "Model loader não inicializado")) handler,
       None)
  | Some ml =>
      let r := run (load_model E) ml in
      (try_catch (_ ← fst r; Ret "Modelo recarregado com sucesso") handler,
       Some (self (snd r)))
  end.

End app.

(** ** [src/model/train.py]: saving the trained artifacts *)

Module train.

(** The attributes of a [FakeNewsTrainer]: the vectorizer and the
    [models] dictionary, in insertion order. *)
Record FakeNewsTrainer : Type := Trainer {
  vectorizer : pyobj;
  models : list (string * pyobj)
}.

(** The output directory before [save_models]. *)
Inductive out_dir : Type :=
  | Absent
  | NotADirectory
  | Present (files : gmap string node).

(** The files found in it, if it is a directory. *)
Definition files_of (d : out_dir) : gmap string node :=
  match d with
  | Present files => files
  | _ => ∅
  end.

(** [os.makedirs(output_dir, exist_ok=True)] *)
Definition makedirs (d : out_dir) : outcome unit * out_dir :=
  match d with
  | Absent => (Ret (), Present ∅)
  | NotADirectory => (Raise (OSError "FileExistsError"), NotADirectory)
  | Present files => (Ret (), Present files)
  end.

(** [joblib.dump(obj, os.path.join(output_dir, name))]: the file is
    opened for writing, which creates or truncates it, and the object is
    pickled into it. A dump that raises leaves what it had written, which
    does not load. *)
Definition dump (E : Env) (obj : pyobj) (name : string) (d : out_dir)
  : outcome unit * out_dir :=
  match joblib_dump E (Some obj) with
  | Ret b => (Ret (), Present (<[name := File b]> (files_of d)))
  | Raise e => (Raise e, Present (<[name := File Corrupt]> (files_of d)))
  end.

(** The [for name, model in self.models.items()] loop. *)
Fixpoint save_each (E : Env) (items : list (string * pyobj)) (d : out_dir)
  : outcome unit * out_dir :=
  match items with
  | [] => (Ret (), d)
  | (name, model) :: rest =>
      match dump E model (name +:+ ".joblib") d with
      | (Ret _, d') => save_each E rest d'
      | (Raise e, d') => (Raise e, d')
      end
  end.

(** [save_models]: no handler, an exception leaves the files written so
    far. *)
Definition save_models (E : Env) (self : FakeNewsTrainer) (d : out_dir)
  : outcome unit * out_dir :=
  match makedirs d with
  | (Raise e, d0) => (Raise e, d0)
  | (Ret _, d0) =>
      match dump E (vectorizer self) "vectorizer.joblib" d0 with
      | (Raise e, d1) => (Raise e, d1)
      | (Ret _, d1) => save_each E (models self) d1
      end
  end.

End train.

(** ** [src/model/evaluate.py]: loading the saved artifacts *)

Module evaluate.

(** The attributes of a [FakeNewsEvaluator]. *)
Record FakeNewsEvaluator : Type := Evaluator {
  model : pyval;
  vectorizer : pyval
}.

(** [joblib.load(path)] for a path in a directory holding [files]. *)
Definition load (files : gmap string node) (name : string) : outcome pyval :=
  match files !! name with
  | Some (File b) => joblib_load b
  | _ => Raise (OSError "FileNotFoundError")
  end.

(** [__init__], for two files of one directory: no handler, a missing or
    unreadable file raises. *)
Definition init (files : gmap string node) (model_path vectorizer_path : string)
  : outcome FakeNewsEvaluator :=
  model ← load files model_path;
  vectorizer ← load files vectorizer_path;
  Ret (Evaluator model vectorizer).

End evaluate.


(** * Specification of the fallback chain *)

Import ModelLoader.

(** The keys of the artifacts in the local directory listing. *)
Definition model_files (entries : list (string * node)) : list string :=
  List.filter (fun f => endswith f ".joblib") (entries.*1).

(** The remote tier obtains [m] and [v]: the client exists, the three
    configuration keys are set and both downloads give a true value. *)
Definition remote_ok (s : t) (m v : pyval) : Prop :=
  ∃ client bucket_name model_key vectorizer_key,
    s3_client s = Some client ∧
    s3_config s !! "bucket_name" = Some bucket_name ∧
    s3_config s !! "model_key" = Some model_key ∧
    s3_config s !! "vectorizer_key" = Some vectorizer_key ∧
    S3Client.download_model client bucket_name model_key = Ret m ∧
    truth m = true ∧
    S3Client.download_model client bucket_name vectorizer_key = Ret v ∧
    truth v = true.

(** What an attribute holds after `if os.path.exists(p): attr =
    joblib.load(p)`: the loaded value, or the value it had; the load may
    raise. *)
Definition load_if_exists (d : local_dir) (name : string) (old : pyval)
  : outcome pyval :=
  if file_exists d name then load_file d name else Ret old.

(** The local tier, entered on attributes [s], ends with [m] and [v] in
    the two fields and both true; [f] is the first [.joblib] name of the
    listing. *)
Definition local_ok (E : Env) (s : t) (f : string) (m v : pyval) : Prop :=
  ∃ entries,
    models_dir_content E = Dir entries ∧
    head (model_files entries) = Some f ∧
    load_if_exists (models_dir_content E) f (model s) = Ret m ∧
    load_if_exists (models_dir_content E) "vectorizer.joblib" (vectorizer s)
      = Ret v ∧
    truth m = true ∧
    truth v = true.

(** The placeholder is built: sklearn imports, both estimators are
    constructed and both fits return; [m] and [v] are the fitted ones. *)
Definition dummy_ok (E : Env) (m v : pyobj) : Prop :=
  ∃ sk m0 v0 X,
    sklearn E = Some sk ∧
    LogisticRegression sk = Ret m0 ∧
    TfidfVectorizer sk 100 = Ret v0 ∧
    fit_transform sk v0 dummy_texts = Ret (v, X) ∧
    fit sk m0 X dummy_labels = Ret m.

(** No tier reaches an assignment to [model] or [vectorizer]: there is
    no S3 client, the local directory offers no [.joblib] file, and the
    placeholder fails before its classifier is constructed. *)
Definition no_assignment (E : Env) (s : t) : Prop :=
  s3_client s = None ∧
  (∀ entries, models_dir_content E = Dir entries → model_files entries = []) ∧
  (∀ sk, sklearn E = Some sk → raises (LogisticRegression sk)).

(** The dictionary literals the three tiers assign to [model_info]:
    lines 88-95, 137-143 and 175-180 of [model_loader.py]. *)
Definition s3_info (E : Env) (bucket_name model_key vectorizer_key : string)
    (m : pyval) : gmap string info_value :=
  <["source" := IStr "s3"]>
  (<["bucket" := IStr bucket_name]>
  (<["model_key" := IStr model_key]>
  (<["vectorizer_key" := IStr vectorizer_key]>
  (<["loaded_at" := ITime (now_loaded_at E)]>
  (<["model_type" := IStr (type_name_of m)]> ∅))))).

Definition local_info (E : Env) (f : string) (m : pyval)
  : gmap string info_value :=
  <["source" := IStr "local"]>
  (<["model_path" := IStr (path_join (models_dir E) f)]>
  (<["vectorizer_path" := IStr (path_join (models_dir E) "vectorizer.joblib")]>
  (<["loaded_at" := ITime (now_loaded_at E)]>
  (<["model_type" := IStr (type_name_of m)]> ∅)))).

Definition dummy_info (E : Env) : gmap string info_value :=
  <["source" := IStr "dummy"]>
  (<["loaded_at" := ITime (now_loaded_at E)]>
  (<["model_type" := IStr "DummyLogisticRegression"]>
  (<["warning" := IStr "Este é um modelo dummy para desenvolvimento"]> ∅))).

(** [model_info] after a successful remote tier: the literal, with the
    three names read from the configuration. *)
Definition remote_info (E : Env) (s s' : t) : Prop :=
  ∃ bucket_name model_key vectorizer_key,
    s3_config s !! "bucket_name" = Some bucket_name ∧
    s3_config s !! "model_key" = Some model_key ∧
    s3_config s !! "vectorizer_key" = Some vectorizer_key ∧
    model_info s'
      = s3_info E bucket_name model_key vectorizer_key (model s').

(** The value of ['source'] in [model_info]. *)
Definition source (s : t) : option info_value := model_info s !! "source".

(** The attributes no chain method assigns. *)
Definition same_client (s s' : t) : Prop :=
  s3_config s' = s3_config s ∧ s3_client s' = s3_client s.

(** The provenance attributes are as they were. *)
Definition same_provenance (s s' : t) : Prop :=
  model_info s' = model_info s ∧ last_loaded s' = last_loaded s.

(** The three ways a run of [load_model] on attributes [s] can go, with
    its result and final frame. [s1] and [s2] are the attributes found by
    [_load_local_fallback] and [_load_dummy_model] on entry. *)
Inductive chain_run (E : Env) (s : t) : bool → frame → Prop :=
  | chain_remote m v s' :
      remote_ok s m v →
      same_client s s' →
      model s' = m → vectorizer s' = v →
      source s' = Some (IStr "s3") →
      remote_info E s s' →
      last_loaded s' = Some (now E) →
      chain_run E s true (Frame s' [(M_load_model, s)])
  | chain_local s1 f m v s' :
      (∀ m v, ¬ remote_ok s m v) →
      same_client s s1 → same_provenance s s1 →
      (s3_client s = None → s1 = s) →
      local_ok E s1 f m v →
      same_client s1 s' →
      model s' = m → vectorizer s' = v →
      source s' = Some (IStr "local") →
      model_info s' !! "model_path" = Some (IStr (path_join (models_dir E) f)) →
      model_info s' = local_info E f m →
      last_loaded s' = Some (now E) →
      chain_run E s true
        (Frame s' [(M_load_model, s); (M_load_local_fallback, s1)])
  | chain_dummy s1 s2 b s' :
      (∀ m v, ¬ remote_ok s m v) →
      same_client s s1 → same_provenance s s1 →
      (s3_client s = None → s1 = s) →
      (∀ f m v, ¬ local_ok E s1 f m v) →
      same_client s1 s2 → same_provenance s1 s2 →
      ((∀ entries, models_dir_content E = Dir entries →
          model_files entries = []) → s2 = s1) →
      same_client s2 s' →
      (b = true → ∃ m v, dummy_ok E m v ∧ model s' = Some m ∧
          vectorizer s' = Some v ∧ source s' = Some (IStr "dummy") ∧
          model_info s' = dummy_info E ∧
          last_loaded s' = Some (now E)) →
      (b = false → (∀ m v, ¬ dummy_ok E m v) ∧ same_provenance s2 s') →
      ((∀ sk, sklearn E = Some sk → raises (LogisticRegression sk)) →
         model s' = model s2 ∧ vectorizer s' = vectorizer s2) →
      chain_run E s b
        (Frame s' [(M_load_model, s); (M_load_local_fallback, s1);
                   (M_load_dummy_model, s2)]).

(** Did the call return. *)
Definition returned {A} (o : outcome A) : bool :=
  match o with
  | Ret _ => true
  | Raise _ => false
  end.

(** One entry of a batch answer: the error entry for a blank text, the
    value of [predict] otherwise. *)
Definition batch_entry (ml : t) (text : string) (r : result) : Prop :=
  if str_truth (strip text)
  then predict ml text = Ret r
  else r = app.empty_text_entry.

(** ** Concrete objects and environments

    Small artifacts and environments on which the model can be run. *)

(** A vectorizer with one feature, the length of the text. *)
Definition toy_transform (texts : list string) : outcome features :=
  Ret (List.map (fun t => [inject_Z (Z.of_nat (String.length t))]) texts).

Definition toy_vectorizer : pyobj :=
  PyObj "TfidfVectorizer" true (Some toy_transform) None None.

(** A classifier that calls long texts fake. *)
Definition toy_class (row : list Q) : Z :=
  match row with
  | x :: _ => if Qle_bool 20 x then 1%Z else 0%Z
  | [] => 0%Z
  end.

Definition toy_proba (row : list Q) : list Q :=
  if bool_decide (toy_class row = 1%Z)
  then [1 # 4; 3 # 4]
  else [7 # 10; 3 # 10].

Definition toy_classifier : pyobj :=
  PyObj "LogisticRegression" true None
        (Some (fun X => Ret (List.map toy_class X)))
        (Some (fun X => Ret (List.map toy_proba X))).

Definition toy_forest : pyobj :=
  PyObj "RandomForestClassifier" true None
        (Some (fun X => Ret (List.map toy_class X)))
        (Some (fun X => Ret (List.map toy_proba X))).

(** Estimators before [fit]. *)
Definition unfit_classifier : pyobj :=
  PyObj "LogisticRegression" true None
        (Some (fun _ => Raise (ValueError "NotFittedError")))
        (Some (fun _ => Raise (ValueError "NotFittedError"))).

Definition unfit_vectorizer : pyobj :=
  PyObj "TfidfVectorizer" true
        (Some (fun _ => Raise (ValueError "NotFittedError"))) None None.

Definition sklearn_installed : sklearn_pkg :=
  Sklearn (Ret unfit_classifier)
          (fun _ => Ret unfit_vectorizer)
          (fun _ texts =>
             X ← toy_transform texts; Ret (toy_vectorizer, X))
          (fun _ _ _ => Ret toy_classifier).

(** The configuration built by [create_model_loader]. *)
Definition default_config : gmap string string :=
  <["endpoint_url" := "http://localhost:4566"]>
  (<["bucket_name" := "fake-news-models"]>
  (<["model_key" := "models/best_model.joblib"]>
  (<["vectorizer_key" := "models/vectorizer.joblib"]> ∅))).

(** An endpoint nobody listens on. *)
Definition unreachable_store : boto3.s3 :=
  boto3.S3
    (fun _ => Raise EndpointConnectionError)
    (fun _ _ _ => Raise EndpointConnectionError)
    (fun _ _ => Raise EndpointConnectionError)
    (fun _ _ => Raise EndpointConnectionError)
    (fun _ _ => Raise EndpointConnectionError)
    (Raise EndpointConnectionError).

(** A reachable store with an empty bucket. *)
Definition empty_store : boto3.s3 :=
  boto3.S3
    (fun _ => Raise (ClientError "BucketAlreadyOwnedByYou"))
    (fun _ _ _ => Ret ())
    (fun _ _ => Raise (ClientError "404"))
    (fun _ _ => Ret None)
    (fun _ _ => Ret ())
    (Ret ["fake-news-models"]).

(** A store whose only object is a pickled [None]. *)
Definition none_store : boto3.s3 :=
  boto3.S3
    (fun _ => Raise (ClientError "BucketAlreadyOwnedByYou"))
    (fun _ _ _ => Ret ())
    (fun _ _ => Ret (Pickled None))
    (fun _ prefix => Ret (Some [prefix +:+ "none.joblib"]))
    (fun _ _ => Ret ())
    (Ret ["fake-news-models"]).

(** A store that has the model but not the vectorizer. *)
Definition model_only_store : boto3.s3 :=
  boto3.S3
    (fun _ => Raise (ClientError "BucketAlreadyOwnedByYou"))
    (fun _ _ _ => Ret ())
    (fun _ key =>
       if bool_decide (key = "models/best_model.joblib")
       then Ret (Pickled (Some toy_classifier))
       else Raise (ClientError "404"))
    (fun _ _ => Ret (Some ["models/best_model.joblib"]))
    (fun _ _ => Ret ())
    (Ret ["fake-news-models"]).

(** A store that has both artifacts. *)
Definition full_store : boto3.s3 :=
  boto3.S3
    (fun _ => Raise (ClientError "BucketAlreadyOwnedByYou"))
    (fun _ _ _ => Ret ())
    (fun _ key =>
       if bool_decide (key = "models/best_model.joblib")
       then Ret (Pickled (Some toy_forest))
       else if bool_decide (key = "models/vectorizer.joblib")
       then Ret (Pickled (Some toy_vectorizer))
       else Raise (ClientError "404"))
    (fun _ _ => Ret (Some ["models/best_model.joblib";
                           "models/vectorizer.joblib"]))
    (fun _ _ => Ret ())
    (Ret ["fake-news-models"]).

Definition models_path : string := "src/api/../../models".

(** Model in the store, vectorizer missing, no local directory, sklearn
    not installed. *)
Definition E_model_only : Env :=
  MkEnv (fun _ => Ret model_only_store) (fun _ => Raise (OSError "no space"))
        true models_path NoDir None 16 17.

(** Both artifacts in the store; a local directory and sklearn are there
    too. *)
Definition E_remote : Env :=
  MkEnv (fun _ => Ret full_store) (fun _ => Raise (OSError "no space"))
        true models_path
        (Dir [("vectorizer.joblib", File (Pickled (Some toy_vectorizer)));
              ("logistic_regression.joblib",
               File (Pickled (Some toy_classifier)))])
        (Some sklearn_installed) 16 17.

(** Nothing is available and the S3 client module does not import. *)
Definition E_nothing : Env :=
  MkEnv (fun _ => Ret unreachable_store) (fun _ => Raise (OSError "no space"))
        false models_path NoDir None 16 17.

(** Store unreachable, no local directory, sklearn installed. *)
Definition E_placeholder : Env :=
  MkEnv (fun _ => Ret unreachable_store) (fun _ => Raise (OSError "no space"))
        true models_path NoDir (Some sklearn_installed) 16 17.

(** Later: still no store, and the local directory has received a
    classifier but no [vectorizer.joblib]. *)
Definition E_classifier_copied : Env :=
  MkEnv (fun _ => Ret unreachable_store) (fun _ => Raise (OSError "no space"))
        true models_path
        (Dir [("random_forest.joblib", File (Pickled (Some toy_forest)))])
        (Some sklearn_installed) 41 42.

(** Store unreachable; the local directory is the output of
    [FakeNewsTrainer.save_models], listed with the vectorizer first. *)
Definition E_vectorizer_first : Env :=
  MkEnv (fun _ => Ret unreachable_store) (fun _ => Raise (OSError "no space"))
        true models_path
        (Dir [("vectorizer.joblib", File (Pickled (Some toy_vectorizer)));
              ("logistic_regression.joblib", File (Pickled (Some toy_classifier)));
              ("random_forest.joblib", File (Pickled (Some toy_forest)))])
        (Some sklearn_installed) 16 17.

(** The loader after its first [load_model] in an environment. *)
Definition started (E : Env) : t :=
  self (snd (run (load_model E) (ModelLoader.init E default_config))).

(** The loader that started in [E_placeholder], after a reload once the
    classifier file has been copied. *)
Definition reloaded : t :=
  self (snd (run (reload_model E_classifier_copied) (started E_placeholder))).

(** A batch with a blank item in the middle. *)
Definition five_texts : list string :=
  ["Quiet day in town";
   "Scientists baffled by this one weird trick";
   "   ";
   "Rain expected";
   "You will not believe what happened next"].

(** Texts outside ASCII, by their UTF-8 bytes: a no-break space
    (U+00A0); an ideographic space (U+3000) followed by a line separator
    (U+2028); a zero-width space (U+200B), which is not whitespace for
    Python. *)
Definition nbsp_text : string := String "194"%char (String "160"%char "").

Definition wide_blank_text : string :=
  String "227"%char (String "128"%char (String "128"%char
    (String "226"%char (String "128"%char (String "168"%char ""))))).

Definition zero_width_text : string :=
  String "226"%char (String "128"%char (String "139"%char "")).

(** A loader holding the toy pair. *)
Definition toy_loader : t :=
  ModelLoader.Make default_config None (Some toy_classifier)
                   (Some toy_vectorizer) ∅ None.

(** ** Further specification vocabulary *)

(** Every character of the text is whitespace for Python (the empty
    text included). *)
Definition all_whitespace (s : string) : bool :=
  forallb isspace (utf8_decode s).

(** [entries] is what [os.listdir] gives for a directory holding
    [files]: the same files, in some order. *)
Definition listing (files : gmap string node) (entries : list (string * node))
  : Prop :=
  entries ≡ₚ map_to_list files.

(** The HTTP status of an answer: 200 for a value, the status of the
    [HTTPException], and 0 for any other exception (which FastAPI would
    not turn into a response of the endpoint). *)
Definition http_status {A} (o : outcome A) : nat :=
  match o with
  | Ret _ => 200
  | Raise (HTTPException status_code _) => status_code
  | Raise _ => 0
  end.

(** A trainer holding the toy artifacts, as [train_models] leaves it. *)
Definition toy_trainer : train.FakeNewsTrainer :=
  train.Trainer toy_vectorizer
    [("logistic_regression", toy_classifier); ("random_forest", toy_forest)].

(** An environment in which [joblib.dump] writes what [joblib.load]
    reads back, and whose local directory is the one [toy_trainer] saves,
    listed with the forest first. *)
Definition E_trained : Env :=
  MkEnv (fun _ => Ret unreachable_store) (fun v => Ret (Pickled v))
        true models_path
        (Dir [("random_forest.joblib", File (Pickled (Some toy_forest)));
              ("vectorizer.joblib", File (Pickled (Some toy_vectorizer)));
              ("logistic_regression.joblib",
               File (Pickled (Some toy_classifier)))])
        None 16 17.

(** sklearn whose vectorizer cannot be fitted. *)
Definition sklearn_fit_fails : sklearn_pkg :=
  Sklearn (Ret unfit_classifier)
          (fun _ => Ret unfit_vectorizer)
          (fun _ _ => Raise (ValueError "empty vocabulary"))
          (fun _ _ _ => Ret toy_classifier).

(** No client module, no local directory, and that sklearn. *)
Definition E_fit_fails : Env :=
  MkEnv (fun _ => Ret unreachable_store) (fun _ => Raise (OSError "no space"))
        false models_path NoDir (Some sklearn_fit_fails) 16 17.

(** * Proofs *)

#[local] Arguments file_exists : simpl never.
#[local] Arguments load_file : simpl never.

(** Unfolding of the monadic plumbing. *)
Ltac py_unfold :=
  cbv [mbind mret py_bind py_ret outcome_bind outcome_ret try_except try_catch
       eval get enter set_model set_vectorizer set_model_info set_last_loaded
       self entered] in *.

(** Rewriting with what is known about the local files. *)
Ltac use_facts :=
  repeat match goal with
    | H : file_exists _ _ = _ |- _ => rewrite H in *
    | H : load_file _ _ = _ |- _ => rewrite H in *
    | H : List.filter _ _ = _ |- _ => rewrite H in *
    end.

(** The placeholder got past the construction of its classifier. *)
Ltac not_reached Hm :=
  let H := fresh "Hno" in
  intros H; specialize (H _ eq_refl); rewrite Hm in H; done.

Lemma dummy_spec E s tr :
  ∃ b s',
    _load_dummy_model E (Frame s tr)
      = (Ret b, Frame s' (tr ++ [(M_load_dummy_model, s)])) ∧
    same_client s s' ∧
    (b = true → ∃ m v, dummy_ok E m v ∧ model s' = Some m ∧
        vectorizer s' = Some v ∧ source s' = Some (IStr "dummy") ∧
        model_info s' = dummy_info E ∧
        last_loaded s' = Some (now E)) ∧
    (b = false → (∀ m v, ¬ dummy_ok E m v) ∧ same_provenance s s') ∧
    ((∀ sk, sklearn E = Some sk → raises (LogisticRegression sk)) →
       model s' = model s ∧ vectorizer s' = vectorizer s).
Proof.
  unfold _load_dummy_model, import_sklearn, same_client, same_provenance,
    dummy_ok, source.
  py_unfold. destruct s as [cfg cli m0 v0 info ll]. simpl.
  destruct (sklearn E) as [sk|] eqn:Hsk.
  2:{ eexists false, _. split; [reflexivity|]. simpl.
      split_and!; try done. intros _. split; [|done].
      intros m v (sk & ? & ? & ? & ? & _); done. }
  destruct (LogisticRegression sk) as [m1|e] eqn:Hm.
  2:{ eexists false, _. split; [reflexivity|]. simpl.
      split_and!; try done. intros _. split; [|done].
      intros m v (sk' & ? & ? & ? & ? & ? & _); congruence. }
  destruct (TfidfVectorizer sk 100) as [v1|e] eqn:Hv.
  2:{ eexists false, _. split; [reflexivity|]. simpl.
      split_and!; try done; [|not_reached Hm]. intros _. split; [|done].
      intros m v (sk' & ? & ? & ? & ? & ? & ? & _); congruence. }
  destruct (fit_transform sk v1 dummy_texts) as [[v2 X]|e] eqn:Hft.
  2:{ eexists false, _. split; [reflexivity|]. simpl.
      split_and!; try done; [|not_reached Hm]. intros _. split; [|done].
      intros m v (sk' & ? & ? & ? & ? & ? & ? & ? & _); congruence. }
  destruct (fit sk m1 X dummy_labels) as [m2|e] eqn:Hfit.
  2:{ eexists false, _. split; [reflexivity|]. simpl.
      split_and!; try done; [|not_reached Hm]. intros _. split; [|done].
      intros m v (sk' & ? & ? & ? & ? & ? & ? & ? & ?).
      simplify_eq. congruence. }
  eexists true, _. split; [reflexivity|]. simpl.
  split_and!; try done; [|not_reached Hm].
  intros _. exists m2, v2. split_and!; try done.
  exists sk, m1, v1, X. done.
Qed.

Lemma dummy_try E fr (h : exn → py bool) :
  (let (o, fr') := _load_dummy_model E fr in
   match o with
   | Ret a => (Ret a, fr')
   | Raise e => h e fr'
   end) = _load_dummy_model E fr.
Proof.
  destruct fr as [s tr]. destruct (dummy_spec E s tr) as (b & s' & -> & _).
  done.
Qed.

Lemma local_spec E s tr :
  let tr1 := tr ++ [(M_load_local_fallback, s)] in
  (∃ f m v s',
      local_ok E s f m v ∧
      _load_local_fallback E (Frame s tr) = (Ret true, Frame s' tr1) ∧
      same_client s s' ∧ model s' = m ∧ vectorizer s' = v ∧
      source s' = Some (IStr "local") ∧
      model_info s' !! "model_path" = Some (IStr (path_join (models_dir E) f)) ∧
      model_info s' = local_info E f m ∧
      last_loaded s' = Some (now E))
  ∨ ((∀ f m v, ¬ local_ok E s f m v) ∧
     ∃ s2,
       _load_local_fallback E (Frame s tr) = _load_dummy_model E (Frame s2 tr1) ∧
       same_client s s2 ∧ same_provenance s s2 ∧
       ((∀ entries, models_dir_content E = Dir entries →
           model_files entries = []) → s2 = s)).
Proof.
  intros tr1. subst tr1.
  unfold _load_local_fallback, local_ok, same_client,
    same_provenance, source, model_files.
  destruct s as [cfg cli m0 v0 info ll].
  destruct (models_dir_content E) as [| |entries] eqn:Hd; py_unfold; simpl.
  - right. split; [intros f m v (? & ? & _); done|].
    eexists. split; [rewrite dummy_try; reflexivity|done].
  - right. split; [intros f m v (? & ? & _); done|].
    eexists. split; [reflexivity|done].
  - destruct (List.filter _ (entries.*1)) as [|f rest] eqn:Hfiles.
    + right. split; [intros f m v (en & Hen & Hh & _); simplify_eq; rewrite Hfiles in Hh; done|].
      eexists. split; [rewrite dummy_try; reflexivity|done].
    + unfold load_if_exists.
      destruct (file_exists (Dir entries) f) eqn:Hex;
        [destruct (load_file (Dir entries) f) as [m1|e] eqn:Hl|];
        simpl;
        try (destruct (file_exists (Dir entries) "vectorizer.joblib") eqn:Hexv;
             [destruct (load_file (Dir entries) "vectorizer.joblib")
                as [v1|e'] eqn:Hlv|]; simpl);
        try match goal with
            | |- context [truth ?a && truth ?b] =>
                destruct (truth a) eqn:Htm; [destruct (truth b) eqn:Htv|]; simpl
            end.
      all: first
        [ right; split;
          [ intros f' m v (en & Hen & Hh & Hm & Hv & Htm' & Htv');
            simplify_eq; use_facts; simplify_eq/=; use_facts; simplify_eq;
            congruence
          | eexists; split; [rewrite ?dummy_try; reflexivity|];
            split_and!; try done;
            intros Hn; specialize (Hn _ eq_refl); use_facts; done ]
        | left; eexists f, _, _, _; split; cycle 1;
          [ split; [reflexivity|]; simpl; split_and!; reflexivity
          | exists entries; split_and!; try done; use_facts; done ] ].
Qed.

Lemma local_returns E s tr :
  ∃ b fr', _load_local_fallback E (Frame s tr) = (Ret b, fr').
Proof.
  destruct (local_spec E s tr) as
    [(f & m & v & s' & _ & -> & _)|(_ & s2 & -> & _)]; [eauto|].
  destruct (dummy_spec E s2 (tr ++ [(M_load_local_fallback, s)]))
    as (b & s' & -> & _). eauto.
Qed.

Lemma local_try E fr (h : exn → py bool) :
  (let (o, fr') := _load_local_fallback E fr in
   match o with
   | Ret a => (Ret a, fr')
   | Raise e => h e fr'
   end) = _load_local_fallback E fr.
Proof.
  destruct fr as [s tr]. destruct (local_returns E s tr) as (b & fr' & ->).
  done.
Qed.

Lemma load_spec E s tr :
  let tr1 := tr ++ [(M_load_model, s)] in
  (∃ m v s',
      remote_ok s m v ∧
      load_model E (Frame s tr) = (Ret true, Frame s' tr1) ∧
      same_client s s' ∧ model s' = m ∧ vectorizer s' = v ∧
      source s' = Some (IStr "s3") ∧
      remote_info E s s' ∧
      last_loaded s' = Some (now E))
  ∨ ((∀ m v, ¬ remote_ok s m v) ∧
     ∃ s1,
       load_model E (Frame s tr) = _load_local_fallback E (Frame s1 tr1) ∧
       same_client s s1 ∧ same_provenance s s1 ∧
       (s3_client s = None → s1 = s)).
Proof.
  intros tr1. subst tr1.
  unfold load_model, remote_ok, same_client, same_provenance, source, getitem.
  destruct s as [cfg cli m0 v0 info ll]. py_unfold. simpl.
  destruct cli as [client|].
  2:{ right. split; [intros m v (? & ? & ? & ? & ? & _); done|].
      eexists. split; [rewrite local_try; reflexivity|done]. }
  destruct (cfg !! "bucket_name") as [bucket_name|] eqn:Hb; simpl.
  2:{ right. split; [intros m v (? & ? & ? & ? & ? & ? & _); done|].
      eexists. split; [reflexivity|done]. }
  destruct (cfg !! "model_key") as [model_key|] eqn:Hmk; simpl.
  2:{ right. split; [intros m v (? & ? & ? & ? & ? & ? & ? & _); done|].
      eexists. split; [reflexivity|done]. }
  destruct (cfg !! "vectorizer_key") as [vectorizer_key|] eqn:Hvk; simpl.
  2:{ right. split; [intros m v (? & ? & ? & ? & ? & ? & ? & ? & _); done|].
      eexists. split; [reflexivity|done]. }
  destruct (S3Client.download_model client bucket_name model_key)
    as [m|e] eqn:Hdm; simpl.
  2:{ right. split;
        [intros m v (? & ? & ? & ? & ? & ? & ? & ? & ? & _);
         simplify_eq; congruence|].
      eexists. split; [reflexivity|done]. }
  destruct (truth m) eqn:Htm; simpl.
  2:{ right. split;
        [intros m' v (? & ? & ? & ? & ? & ? & ? & ? & ? & ? & _);
         simplify_eq; congruence|].
      eexists. split; [rewrite local_try; reflexivity|done]. }
  destruct (S3Client.download_model client bucket_name vectorizer_key)
    as [v|e] eqn:Hdv; simpl.
  2:{ right. split;
        [intros m' v (? & ? & ? & ? & ? & ? & ? & ? & ? & ? & ? & _);
         simplify_eq; congruence|].
      eexists. split; [reflexivity|done]. }
  destruct (truth v) eqn:Htv; simpl.
  2:{ right. split;
        [intros m' v' (? & ? & ? & ? & ? & ? & ? & ? & ? & ? & ? & ?);
         simplify_eq; congruence|].
      eexists. split; [rewrite local_try; reflexivity|done]. }
  left. exists m, v. eexists. split.
  { exists client, bucket_name, model_key, vectorizer_key. done. }
  split; [reflexivity|]. simpl. split_and!; try done.
  exists bucket_name, model_key, vectorizer_key. done.
Qed.

(** Every run of [load_model] returns, in one of the three ways. *)
Lemma load_model_chain_run E s :
  ∃ b fr, run (load_model E) s = (Ret b, fr) ∧ chain_run E s b fr.
Proof.
  unfold run.
  destruct (load_spec E s []) as
    [(m & v & s' & Hok & -> & ? & ? & ? & ? & ? & ?)
    |(Hno & s1 & -> & ? & ? & ?)]; simpl.
  { eexists _, _. split; [done|]. by eapply chain_remote. }
  destruct (local_spec E s1 [(M_load_model, s)]) as
    [(f & m & v & s' & Hok & -> & ? & ? & ? & ? & ? & ? & ?)
    |(Hnol & s2 & -> & ? & ? & ?)]; simpl.
  { eexists _, _. split; [done|]. by eapply chain_local. }
  destruct (dummy_spec E s2
              [(M_load_model, s); (M_load_local_fallback, s1)])
    as (b & s' & -> & ? & ? & ? & ?).
  eexists _, _. split; [done|]. by eapply chain_dummy.
Qed.

(** * The claims *)

(** ** C1: a load that fails is not all-or-nothing *)

(** C1, refuted as stated. The store has the model but not the
    vectorizer, there is no local directory and sklearn is missing.
    [load_model] on a fresh loader reports failure, yet [model] now holds
    the downloaded classifier while [vectorizer] is still [None]: the pair
    after the load differs from the pair before it, and exactly one of the
    two fields has been replaced. *)
Lemma failed_load_half_updated :
  fst (run (load_model E_model_only)
           (ModelLoader.init E_model_only default_config)) = Ret false ∧
  model (ModelLoader.init E_model_only default_config) = None ∧
  vectorizer (ModelLoader.init E_model_only default_config) = None ∧
  model (started E_model_only) = Some toy_classifier ∧
  vectorizer (started E_model_only) = None ∧
  (model (started E_model_only), vectorizer (started E_model_only))
    ≠ (model (ModelLoader.init E_model_only default_config),
       vectorizer (ModelLoader.init E_model_only default_config)).
Proof.
  split_and!; try (vm_compute; reflexivity).
  intros H. vm_compute in H. discriminate H.
Qed.

(** C1, amended. A load that does not report success leaves the
    provenance ([model_info], [last_loaded]) and the client attributes as
    they were. The pair ([model], [vectorizer]) is not protected, the
    tiers assign the two fields as they go; it is as before when no tier
    reaches an assignment: no S3 client, no [.joblib] file in the local
    directory, and the placeholder failing before its classifier is
    constructed. *)
Theorem failed_load_keeps_provenance E s fr :
  run (load_model E) s = (Ret false, fr) →
  same_provenance s (self fr) ∧
  same_client s (self fr) ∧
  (no_assignment E s →
   model (self fr) = model s ∧ vectorizer (self fr) = vectorizer s).
Proof.
  intros Hrun.
  destruct (load_model_chain_run E s) as (b & fr' & Heq & Hchain).
  rewrite Hrun in Heq. injection Heq as <- <-.
  inversion Hchain; subst; simpl.
  match goal with
  | Hf : false = false → _ |- _ => destruct (Hf eq_refl) as [_ Hp3]
  end.
  unfold same_provenance, same_client in *.
  split_and!; try (destruct_and?; congruence).
  intros (Hcli & Hfiles & Hlr).
  repeat match goal with
         | Hs : ?P → _ = _, HP : ?P |- _ => specialize (Hs HP); subst
         end.
  auto.
Qed.

(** The theorem at work: nothing is available, the load fails and the
    loader is as [__init__] left it. *)
Lemma failed_load_keeps_provenance_witness :
  run (load_model E_nothing) (ModelLoader.init E_nothing default_config)
    = (Ret false,
       snd (run (load_model E_nothing)
                (ModelLoader.init E_nothing default_config))) ∧
  no_assignment E_nothing (ModelLoader.init E_nothing default_config) ∧
  same_provenance (ModelLoader.init E_nothing default_config)
                  (started E_nothing) ∧
  model (started E_nothing) = None ∧
  vectorizer (started E_nothing) = None.
Proof.
  assert (Hrun :
    run (load_model E_nothing) (ModelLoader.init E_nothing default_config)
      = (Ret false,
         snd (run (load_model E_nothing)
                  (ModelLoader.init E_nothing default_config))))
    by (vm_compute; reflexivity).
  assert (Hna :
    no_assignment E_nothing (ModelLoader.init E_nothing default_config)).
  { split_and!; [reflexivity|intros entries [=]|intros sk [=]]. }
  destruct (failed_load_keeps_provenance _ _ _ Hrun) as (Hp & _ & Hmv).
  destruct (Hmv Hna) as [Hm Hv].
  split_and!; [exact Hrun|exact Hna|exact Hp|exact Hm|exact Hv].
Defined.

(** ** C2: the order of the tiers *)

(** C2. [load_model] always returns, and its run has one of three
    shapes, read off the methods entered:
    - the remote tier succeeds; nothing else is entered and the two
      fields hold the downloaded pair;
    - the remote tier fails, [_load_local_fallback] is entered once and
      succeeds; [_load_dummy_model] is not entered and the two fields are
      as the local tier left them;
    - both fail, and [_load_dummy_model] is entered once, last; the load
      succeeds exactly when the placeholder can be built.
    So a tier is entered only after every earlier one has failed, and the
    fields set by the tier that succeeds are the final ones. *)
Theorem tiers_in_strict_order E s :
  ∃ b fr,
    run (load_model E) s = (Ret b, fr) ∧
    ((∃ m v,
        remote_ok s m v ∧ b = true ∧
        entered fr = [(M_load_model, s)] ∧
        model (self fr) = m ∧ vectorizer (self fr) = v)
     ∨ ((∀ m v, ¬ remote_ok s m v) ∧
        ∃ s1,
          (∃ f m v,
              local_ok E s1 f m v ∧ b = true ∧
              entered fr = [(M_load_model, s); (M_load_local_fallback, s1)] ∧
              model (self fr) = m ∧ vectorizer (self fr) = v)
          ∨ ((∀ f m v, ¬ local_ok E s1 f m v) ∧
             ∃ s2,
               entered fr = [(M_load_model, s); (M_load_local_fallback, s1);
                             (M_load_dummy_model, s2)] ∧
               (b = true →
                ∃ m v, dummy_ok E m v ∧ model (self fr) = Some m ∧
                       vectorizer (self fr) = Some v) ∧
               (b = false → ∀ m v, ¬ dummy_ok E m v)))).
Proof.
  destruct (load_model_chain_run E s) as (b & fr & Heq & Hchain).
  exists b, fr. split; [exact Heq|].
  inversion Hchain as [m v s'|s1 f m v s'|s1 s2 b' s']; subst; simpl.
  - left. exists (model s'), (vectorizer s'). done.
  - right. split; [assumption|]. exists s1. left.
    exists f, (model s'), (vectorizer s'). done.
  - right. split; [assumption|]. exists s1. right.
    split; [assumption|]. exists s2. split_and!; [done| |].
    + intros Hb.
      match goal with
      | Ht : b = true → _ |- _ => destruct (Ht Hb) as (m & v & ? & ? & ? & _)
      end. eauto.
    + intros Hb.
      match goal with
      | Hf : b = false → _ |- _ => exact (proj1 (Hf Hb))
      end.
Qed.

(** The three shapes on concrete environments. *)
Example remote_run :
  fst (run (load_model E_remote) (ModelLoader.init E_remote default_config))
    = Ret true ∧
  entered (snd (run (load_model E_remote)
                    (ModelLoader.init E_remote default_config)))
    = [(M_load_model, ModelLoader.init E_remote default_config)] ∧
  model (started E_remote) = Some toy_forest ∧
  vectorizer (started E_remote) = Some toy_vectorizer ∧
  source (started E_remote) = Some (IStr "s3").
Proof. split_and!; vm_compute; reflexivity. Qed.

Example local_run :
  fst (run (load_model E_vectorizer_first)
           (ModelLoader.init E_vectorizer_first default_config)) = Ret true ∧
  (entered (snd (run (load_model E_vectorizer_first)
                     (ModelLoader.init E_vectorizer_first default_config)))).*1
    = [M_load_model; M_load_local_fallback] ∧
  source (started E_vectorizer_first) = Some (IStr "local").
Proof. split_and!; vm_compute; reflexivity. Qed.

Example placeholder_run :
  fst (run (load_model E_placeholder)
           (ModelLoader.init E_placeholder default_config)) = Ret true ∧
  (entered (snd (run (load_model E_placeholder)
                     (ModelLoader.init E_placeholder default_config)))).*1
    = [M_load_model; M_load_local_fallback; M_load_dummy_model] ∧
  model (started E_placeholder) = Some toy_classifier ∧
  vectorizer (started E_placeholder) = Some toy_vectorizer.
Proof. split_and!; vm_compute; reflexivity. Qed.

(** ** C3: the recorded source *)

(** C3, refuted as stated, on two counts.
    First load, nothing but sklearn available: the load succeeds and the
    recorded source is ["dummy"], which is none of ["remote"], ["local"],
    ["synthesized"].
    Reload, after a classifier (and no [vectorizer.joblib]) was copied to
    the local directory: the load succeeds with source ["local"], the
    model comes from the local file, but the vectorizer is still the one
    the placeholder tier fitted in the first load; the tier named by the
    source did not produce it. *)
Lemma source_is_dummy_and_local_keeps_old_vectorizer :
  (fst (run (load_model E_placeholder)
            (ModelLoader.init E_placeholder default_config)) = Ret true ∧
   source (started E_placeholder) = Some (IStr "dummy") ∧
   source (started E_placeholder) ≠ Some (IStr "remote") ∧
   source (started E_placeholder) ≠ Some (IStr "local") ∧
   source (started E_placeholder) ≠ Some (IStr "synthesized")) ∧
  (fst (run (reload_model E_classifier_copied) (started E_placeholder))
     = Ret true ∧
   source reloaded = Some (IStr "local") ∧
   model reloaded = Some toy_forest ∧
   file_exists (models_dir_content E_classifier_copied) "vectorizer.joblib"
     = false ∧
   vectorizer reloaded = vectorizer (started E_placeholder) ∧
   vectorizer reloaded = Some toy_vectorizer).
Proof.
  split; split_and!; try (vm_compute; reflexivity);
    intros H; vm_compute in H; discriminate H.
Qed.

(** C3, amended. After every successful load the recorded source is one
    of ["s3"], ["local"], ["dummy"], and it names the chain method that
    returned success: ["s3"] when the remote tier succeeded, ["local"]
    when the remote tier failed and the local tier succeeded, ["dummy"]
    when both failed and the placeholder was built. [model_info] is
    replaced as a whole by the dictionary literal of that tier, so no key
    of an earlier load survives; its ['loaded_at'] is the first reading of
    the clock and [last_loaded] the second. (The tier named need not have
    produced both artifacts: the local tier succeeds on whatever true
    values the two fields hold after it.) *)
Theorem successful_load_records_tier E s fr :
  run (load_model E) s = (Ret true, fr) →
  model_info (self fr) !! "loaded_at" = Some (ITime (now_loaded_at E)) ∧
  last_loaded (self fr) = Some (now E) ∧
  ((source (self fr) = Some (IStr "s3") ∧
    (∃ bucket_name model_key vectorizer_key,
       s3_config s !! "bucket_name" = Some bucket_name ∧
       s3_config s !! "model_key" = Some model_key ∧
       s3_config s !! "vectorizer_key" = Some vectorizer_key ∧
       model_info (self fr)
         = s3_info E bucket_name model_key vectorizer_key
             (model (self fr))) ∧
    (∃ m v, remote_ok s m v) ∧
    entered fr = [(M_load_model, s)])
   ∨ (source (self fr) = Some (IStr "local") ∧
      (∀ m v, ¬ remote_ok s m v) ∧
      ∃ s1 f,
        (∃ m v, local_ok E s1 f m v) ∧
        model_info (self fr) = local_info E f (model (self fr)) ∧
        entered fr = [(M_load_model, s); (M_load_local_fallback, s1)])
   ∨ (source (self fr) = Some (IStr "dummy") ∧
      model_info (self fr) = dummy_info E ∧
      (∀ m v, ¬ remote_ok s m v) ∧
      ∃ s1 s2, (∀ f m v, ¬ local_ok E s1 f m v) ∧
               (∃ m v, dummy_ok E m v) ∧
               entered fr = [(M_load_model, s); (M_load_local_fallback, s1);
                             (M_load_dummy_model, s2)])).
Proof.
  intros Hrun.
  destruct (load_model_chain_run E s) as (b & fr' & Heq & Hchain).
  rewrite Hrun in Heq. injection Heq as <- <-.
  inversion Hchain as [m v s'|s1 f m v s'|s1 s2 b' s']; subst; simpl.
  - match goal with
    | Hi : remote_info _ _ _ |- _ =>
        pose proof Hi as (bn & mk & vk & Hb & Hm & Hv & Hinfo)
    end.
    split_and!; [rewrite Hinfo; reflexivity|done|].
    left. split_and!; [done| |eauto|done].
    exists bn, mk, vk. done.
  - match goal with
    | Hi : model_info s' = local_info _ _ _ |- _ => pose proof Hi as Hinfo
    end.
    split_and!; [rewrite Hinfo; reflexivity|done|].
    right. left. split_and!; [done..|].
    exists s1, f. split_and!; [eauto|done|done].
  - match goal with
    | Ht : true = true → _ |- _ =>
        destruct (Ht eq_refl) as (m & v & ? & ? & ? & ? & Hinfo & ?)
    end.
    split_and!; [rewrite Hinfo; reflexivity|done|].
    right. right. split_and!; [done..|].
    exists s1, s2. eauto.
Qed.

(** The theorem at work on the placeholder run: the dictionary is the
    placeholder's literal, stamped with the first clock reading, and
    [last_loaded] holds the second. *)
Lemma successful_load_records_tier_witness :
  run (load_model E_placeholder)
      (ModelLoader.init E_placeholder default_config)
    = (Ret true,
       snd (run (load_model E_placeholder)
                (ModelLoader.init E_placeholder default_config))) ∧
  model_info (started E_placeholder) !! "loaded_at" = Some (ITime 16) ∧
  last_loaded (started E_placeholder) = Some 17.
Proof.
  assert (Hrun :
    run (load_model E_placeholder)
        (ModelLoader.init E_placeholder default_config)
      = (Ret true,
         snd (run (load_model E_placeholder)
                  (ModelLoader.init E_placeholder default_config))))
    by (vm_compute; reflexivity).
  split; [exact Hrun|].
  destruct (successful_load_records_tier _ _ _ Hrun) as (Hat & Hll & _).
  split; [exact Hat|exact Hll].
Defined.

(** A reload replaces the dictionary: the service that started on the
    placeholder carries its ['warning']; after the reload from the local
    directory the dictionary is the local literal, without that key, and
    both times are those of the reload. *)
Example reload_replaces_model_info :
  model_info (started E_placeholder) = dummy_info E_placeholder ∧
  model_info (started E_placeholder) !! "warning"
    = Some (IStr "Este é um modelo dummy para desenvolvimento") ∧
  model_info reloaded
    = local_info E_classifier_copied "random_forest.joblib"
        (Some toy_forest) ∧
  model_info reloaded !! "warning" = None ∧
  model_info reloaded !! "loaded_at" = Some (ITime 41) ∧
  last_loaded reloaded = Some 42.
Proof. split_and!; vm_compute; reflexivity. Qed.

(** ** C4: acquisition never raises *)

(** C4. [load_model] returns a boolean on every object and in every
    environment: no exception of a tier escapes. Whenever the placeholder
    can be built the result is [True], and a [True] result comes with a
    recorded source and load time; a [False] result means that the
    placeholder could not be built. *)
Theorem load_model_never_raises E s :
  ∃ b fr,
    run (load_model E) s = (Ret b, fr) ∧
    ((∃ m v, dummy_ok E m v) → b = true) ∧
    (b = true →
     (∃ src, source (self fr) = Some (IStr src)) ∧
     last_loaded (self fr) = Some (now E)) ∧
    (b = false → ∀ m v, ¬ dummy_ok E m v).
Proof.
  destruct (load_model_chain_run E s) as (b & fr & Heq & Hchain).
  exists b, fr. split; [exact Heq|].
  inversion Hchain as [m v s'|s1 f m v s'|s1 s2 b' s']; subst; simpl;
    [split_and!; eauto; done..|].
  assert (Hf : b = false → ∀ m v, ¬ dummy_ok E m v).
  { intros Hb.
    match goal with
    | H : b = false → _ ∧ _ |- _ => exact (proj1 (H Hb))
    end. }
  split_and!; [| |exact Hf].
  - intros (m & v & Hok). destruct b; [done|].
    destruct (Hf eq_refl m v Hok).
  - intros Hb.
    match goal with
    | Ht : b = true → _ |- _ =>
        destruct (Ht Hb) as (m & v & _ & _ & _ & ? & _ & ?)
    end. eauto.
Qed.

(** The theorem at work: sklearn is installed, so the load succeeds. *)
Lemma load_model_never_raises_witness :
  dummy_ok E_placeholder toy_classifier toy_vectorizer ∧
  ∃ fr,
    run (load_model E_placeholder)
        (ModelLoader.init E_placeholder default_config) = (Ret true, fr).
Proof.
  assert (Hok : dummy_ok E_placeholder toy_classifier toy_vectorizer).
  { exists sklearn_installed, unfit_classifier, unfit_vectorizer.
    eexists. split_and!; reflexivity. }
  split; [exact Hok|].
  destruct (load_model_never_raises E_placeholder
              (ModelLoader.init E_placeholder default_config))
    as (b & fr & Heq & Ht & _).
  exists fr. rewrite Heq. f_equal. f_equal. apply Ht. eauto.
Defined.

(** ** C5: the prediction contract *)

(** Keeping the first item unless the second is greater gives the larger
    of the two. *)
Lemma gt_Qmax (a b : Q) : (if gt b a then b else a) = Qmax a b.
Proof.
  unfold gt, Qmax, GenericMinMax.gmax.
  destruct (Qle_bool b a) eqn:Hle; simpl.
  - apply Qle_bool_iff in Hle.
    destruct (Qcompare_spec a b) as [Heq|Hlt|Hgt]; try reflexivity.
    exfalso. exact (Qlt_not_le _ _ Hlt Hle).
  - destruct (Qcompare_spec a b) as [Heq|Hlt|Hgt]; try reflexivity.
    + assert (Hba : (b <= a)%Q) by (rewrite Heq; apply Qle_refl).
      apply Qle_bool_iff in Hba. congruence.
    + assert (Hba : (b <= a)%Q) by (apply Qlt_le_weak; exact Hgt).
      apply Qle_bool_iff in Hba. congruence.
Qed.

(** C5. On a loaded pair, for a text that the vectorizer transforms to
    [X], on which the model predicts class [cls] and yields the
    probabilities [[p_real, p_fake]], [predict] returns a result whose
    confidence is [max(p_real, p_fake)], whose probabilities map ["real"]
    to [p_real] and ["fake"] to [p_fake], and whose label is ["fake"]
    exactly when [cls] is 1 and ["real"] otherwise. *)
Theorem predict_contract s text X cls classes p_real p_fake rows :
  is_model_loaded s = true →
  call_method (vectorizer s) "transform" transform [text] = Ret X →
  call_method (model s) "predict" predict_ X = Ret (cls :: classes) →
  call_method (model s) "predict_proba" predict_proba X
    = Ret ([p_real; p_fake] :: rows) →
  ∃ r,
    predict s text = Ret r ∧
    confidence r = Qmax p_real p_fake ∧
    probabilities r !! "real" = Some p_real ∧
    probabilities r !! "fake" = Some p_fake ∧
    (prediction r = "fake" ↔ cls = 1%Z) ∧
    (prediction r = "real" ↔ cls ≠ 1%Z).
Proof.
  intros Hloaded Ht Hp Hpp.
  unfold predict. rewrite Hloaded. simpl.
  rewrite Ht. simpl. rewrite Hp. simpl. rewrite Hpp.
  simpl. rewrite gt_Qmax.
  eexists. split; [reflexivity|]. simpl.
  split_and!; [reflexivity|done|done| |]; case_bool_decide; split; done.
Qed.

(** The theorem at work on the toy pair and a long headline. *)
Lemma predict_contract_witness :
  is_model_loaded toy_loader = true ∧
  ∃ r,
    predict toy_loader "Scientists baffled by this one weird trick" = Ret r ∧
    prediction r = "fake" ∧
    confidence r = Qmax (1 # 4) (3 # 4).
Proof.
  split; [reflexivity|].
  destruct (predict_contract toy_loader
              "Scientists baffled by this one weird trick"
              [[inject_Z 42]] 1%Z [] (1 # 4) (3 # 4) [])
    as (r & Hr & Hc & _ & _ & Hfake & _); try reflexivity.
  exists r. split_and!; [exact Hr| |exact Hc].
  apply Hfake. reflexivity.
Defined.

(** Two runs of [predict] on the toy pair, and one without a model. *)
Example predict_short_text :
  predict toy_loader "Rain expected"
    = Ret (Result "real" (7 # 10)
                  (<["real" := 7 # 10]> (<["fake" := 3 # 10]> ∅)) None).
Proof. vm_compute. reflexivity. Qed.

Example predict_long_text :
  predict toy_loader "You will not believe what happened next"
    = Ret (Result "fake" (3 # 4)
                  (<["real" := 1 # 4]> (<["fake" := 3 # 4]> ∅)) None).
Proof. vm_compute. reflexivity. Qed.

Example predict_not_loaded :
  predict (ModelLoader.init E_nothing default_config) "Rain expected"
    = Raise (RuntimeError "Modelo não está carregado").
Proof. reflexivity. Qed.

(** ** C6: batch prediction *)

Lemma predict_raises_RuntimeError ml text e :
  predict ml text = Raise e → ∃ msg, e = RuntimeError msg.
Proof.
  unfold predict, try_catch.
  destruct (is_model_loaded ml); simpl; [|intros [= <-]; eauto].
  match goal with
  | |- match ?body with _ => _ end = _ → _ => destruct body
  end; [done|intros [= <-]; eauto].
Qed.

Lemma batch_loop_raises_RuntimeError ml texts results e :
  app.batch_loop ml texts results = Raise e → ∃ msg, e = RuntimeError msg.
Proof.
  revert results. induction texts as [|text rest IH]; intros results; simpl.
  - done.
  - destruct (str_truth (strip text)); [|apply IH].
    destruct (predict ml text) as [r|e'] eqn:Hp; simpl; [apply IH|].
    intros [= <-]. eapply predict_raises_RuntimeError, Hp.
Qed.

(** When every non-blank item can be predicted the loop appends one entry
    per text, in order. *)
Lemma batch_loop_ok ml texts results :
  (∀ text, text ∈ texts → str_truth (strip text) = true →
           ∃ r, predict ml text = Ret r) →
  ∃ new,
    app.batch_loop ml texts results = Ret (results ++ new) ∧
    Forall2 (batch_entry ml) texts new.
Proof.
  revert results.
  induction texts as [|text rest IH]; intros results Hall; simpl.
  - exists []. rewrite app_nil_r. split; [done|constructor].
  - assert (Hrest : ∀ text', text' ∈ rest → str_truth (strip text') = true →
                             ∃ r, predict ml text' = Ret r).
    { intros text' Hin. apply Hall. by right. }
    destruct (str_truth (strip text)) eqn:Hblank.
    + destruct (Hall text) as [r Hr]; [by left|done|].
      rewrite Hr. simpl.
      destruct (IH (results ++ [r]) Hrest) as (new & -> & Hnew).
      exists (r :: new). rewrite <- app_assoc. split; [done|].
      constructor; [|done]. unfold batch_entry. by rewrite Hblank.
    + destruct (IH (results ++ [app.empty_text_entry]) Hrest)
        as (new & -> & Hnew).
      exists (app.empty_text_entry :: new). rewrite <- app_assoc.
      split; [done|]. constructor; [|done].
      unfold batch_entry. by rewrite Hblank.
Qed.

(** A non-blank item whose prediction raises makes the loop raise. *)
Lemma batch_loop_fails ml texts results :
  (∃ text, text ∈ texts ∧ str_truth (strip text) = true ∧
           raises (predict ml text)) →
  raises (app.batch_loop ml texts results).
Proof.
  revert results.
  induction texts as [|text rest IH]; intros results (bad & Hin & Hnb & Hr).
  - by apply elem_of_nil in Hin.
  - simpl. apply elem_of_cons in Hin as [->|Hin].
    + rewrite Hnb. destruct (predict ml text); done.
    + destruct (str_truth (strip text)); [|apply IH; eauto].
      destruct (predict ml text); [|done]. simpl. apply IH; eauto.
Qed.

(** C6, refuted as stated. The loader started where the local directory
    lists [vectorizer.joblib] first: a model is loaded, the batch has one
    non-blank item, and the answer is not a list of entries but the
    internal error 500, because [predict] raises on the item. *)
Lemma batch_fails_when_a_prediction_raises :
  is_model_loaded (started E_vectorizer_first) = true ∧
  (length ["Council approves budget"] ≤ 100)%nat ∧
  str_truth (strip "Council approves budget") = true ∧
  app.batch_predict (Some (started E_vectorizer_first))
                    ["Council approves budget"]
    = Raise (HTTPException 500 "Erro interno na predição em lote").
Proof.
  split_and!; [reflexivity|simpl; lia|reflexivity|vm_compute; reflexivity].
Qed.

(** C6, amended. With a loaded model, a batch of more than 100 items is
    rejected as a whole with the client error 400. For a batch of at most
    100 items: if [predict] succeeds on every non-blank item, the answer
    has exactly one entry per input, in input order, the entry of a blank
    text being the error entry ([prediction] ["error"], [confidence] 0,
    both probabilities 0, [error] set) and the entry of any other text its
    prediction; if [predict] raises on some non-blank item, the whole
    batch fails with the internal error 500. *)
Theorem batch_predict_contract ml texts :
  is_model_loaded ml = true →
  ((100 < length texts)%nat →
   app.batch_predict (Some ml) texts
     = Raise (HTTPException 400 "Máximo de 100 textos por requisição")) ∧
  ((length texts ≤ 100)%nat →
   ((∀ text, text ∈ texts → str_truth (strip text) = true →
             ∃ r, predict ml text = Ret r) →
    ∃ results,
      app.batch_predict (Some ml) texts = Ret results ∧
      Forall2 (batch_entry ml) texts results) ∧
   ((∃ text, text ∈ texts ∧ str_truth (strip text) = true ∧
             raises (predict ml text)) →
    app.batch_predict (Some ml) texts
      = Raise (HTTPException 500 "Erro interno na predição em lote"))) ∧
  (prediction app.empty_text_entry = "error" ∧
   confidence app.empty_text_entry = 0%Q ∧
   probabilities app.empty_text_entry !! "real" = Some 0%Q ∧
   probabilities app.empty_text_entry !! "fake" = Some 0%Q ∧
   error app.empty_text_entry = Some "Texto vazio").
Proof.
  intros Hloaded.
  unfold app.batch_predict, app.endpoint, app.unavailable, try_catch.
  rewrite Hloaded. simpl. split_and!; try done.
  - intros Hlen. apply Nat.ltb_lt in Hlen. by rewrite Hlen.
  - intros Hlen.
    assert (Hle : (100 <? length texts)%nat = false) by (apply Nat.ltb_ge; lia).
    rewrite Hle. split.
    + intros Hall. destruct (batch_loop_ok ml texts [] Hall) as (new & -> & ?).
      simpl. eauto.
    + intros Hbad. apply (batch_loop_fails ml texts []) in Hbad.
      destruct (app.batch_loop ml texts []) as [|e] eqn:Hloop; [done|].
      apply batch_loop_raises_RuntimeError in Hloop as [msg ->]. done.
Qed.

(** The theorem at work: five texts, the third one blank. *)
Lemma batch_predict_contract_witness :
  is_model_loaded toy_loader = true ∧
  ∃ results,
    app.batch_predict (Some toy_loader) five_texts = Ret results ∧
    Forall2 (batch_entry toy_loader) five_texts results.
Proof.
  split; [reflexivity|].
  destruct (batch_predict_contract toy_loader five_texts eq_refl)
    as (_ & Hsmall & _).
  destruct Hsmall as [Hok _]; [simpl; lia|].
  apply Hok. intros text Hin _.
  unfold five_texts in Hin.
  repeat (apply elem_of_cons in Hin as [->|Hin];
          [eexists; vm_compute; reflexivity|]).
  by apply elem_of_nil in Hin.
Defined.

(** Four texts and a blank one: five entries, the third is the error
    entry. *)
Example batch_of_five :
  ∃ results,
    app.batch_predict (Some toy_loader) five_texts = Ret results ∧
    prediction <$> results = ["real"; "fake"; "error"; "real"; "fake"] ∧
    results !! 2%nat = Some app.empty_text_entry.
Proof. eexists. split_and!; vm_compute; reflexivity. Qed.

(** Blank is what [str.strip] makes empty: texts of no-break, ideographic
    or line-separator spaces are refused by [POST /predict] and get the
    error entry in a batch, while a zero-width space is a text like any
    other. Accented letters are single characters and are kept. *)
Example unicode_blank_texts :
  utf8_decode nbsp_text = [160%N] ∧
  utf8_decode wide_blank_text = [12288%N; 8232%N] ∧
  strip nbsp_text = [] ∧
  strip wide_blank_text = [] ∧
  strip zero_width_text = [8203%N] ∧
  strip (nbsp_text +:+ " olá " +:+ wide_blank_text) = [111%N; 108%N; 225%N] ∧
  app.predict_fake_news (Some toy_loader) nbsp_text
    = Raise (HTTPException 400 "Texto da notícia não pode estar vazio") ∧
  (∃ r, app.predict_fake_news (Some toy_loader) zero_width_text = Ret r) ∧
  ∃ results,
    app.batch_predict (Some toy_loader)
      ["Rain expected"; nbsp_text; wide_blank_text; zero_width_text]
      = Ret results ∧
    prediction <$> results = ["real"; "error"; "error"; "real"].
Proof.
  split_and!; try (vm_compute; reflexivity).
  - eexists. vm_compute. reflexivity.
  - eexists. split; vm_compute; reflexivity.
Qed.

(** ** C7: failures at the storage client *)

(** C7, refuted as stated. [download_model] gives the same [None] for a
    missing object, for an unreachable endpoint and for a successfully
    downloaded pickled [None]; [list_models] gives the same empty list
    for an unreachable endpoint (the backend call raised) and for a
    reachable store where the prefix matches nothing. *)
Lemma download_and_list_hide_failures :
  (boto3.download_file empty_store "fake-news-models" "models/best_model.joblib"
     = Raise (ClientError "404") ∧
   boto3.download_file unreachable_store "fake-news-models"
                       "models/best_model.joblib"
     = Raise EndpointConnectionError ∧
   boto3.download_file none_store "fake-news-models" "models/best_model.joblib"
     = Ret (Pickled None) ∧
   S3Client.download_model (S3Client.Make empty_store) "fake-news-models"
                           "models/best_model.joblib" = Ret None ∧
   S3Client.download_model (S3Client.Make unreachable_store) "fake-news-models"
                           "models/best_model.joblib" = Ret None ∧
   S3Client.download_model (S3Client.Make none_store) "fake-news-models"
                           "models/best_model.joblib" = Ret None) ∧
  (boto3.list_objects_v2 unreachable_store "fake-news-models" "models/"
     = Raise EndpointConnectionError ∧
   boto3.list_objects_v2 empty_store "fake-news-models" "models/" = Ret None ∧
   S3Client.list_models (S3Client.Make unreachable_store) "fake-news-models"
                        "models/" = Ret [] ∧
   S3Client.list_models (S3Client.Make empty_store) "fake-news-models"
                        "models/" = Ret []).
Proof. split; split_and!; reflexivity. Qed.

(** C7, amended. Every [S3Client] operation except [create_bucket]
    catches every exception at its own layer and returns a sentinel:
    [download_model] returns the deserialized object when the download
    and [joblib.load] both return and [None] on any failure, whatever its
    kind; [list_models] returns the listed keys, and the empty list both
    when nothing matches and when the backend call raises;
    [upload_model], [delete_model] and [check_connection] return [False]
    on any failure. [create_bucket] returns [True] on success and on
    [BucketAlreadyExists], [False] on any other [ClientError], and lets
    every other exception propagate. *)
Theorem s3client_failures_become_sentinels
    (E : Env) (self : S3Client.t) (bucket key prefix : string) (obj : pyval) :
  S3Client.download_model self bucket key =
    Ret (match boto3.download_file (S3Client.s3_client self) bucket key with
         | Ret (Pickled v) => v
         | _ => None
         end) ∧
  S3Client.list_models self bucket prefix =
    Ret (match boto3.list_objects_v2 (S3Client.s3_client self) bucket prefix with
         | Ret (Some keys) => keys
         | _ => []
         end) ∧
  S3Client.upload_model E self obj bucket key =
    Ret (match joblib_dump E obj with
         | Ret tmp_file =>
             returned (boto3.upload_file (S3Client.s3_client self)
                                         tmp_file bucket key)
         | Raise _ => false
         end) ∧
  S3Client.delete_model self bucket key =
    Ret (returned (boto3.delete_object (S3Client.s3_client self) bucket key)) ∧
  S3Client.check_connection self =
    Ret (returned (boto3.list_buckets (S3Client.s3_client self))) ∧
  S3Client.create_bucket self bucket =
    match boto3.create_bucket (S3Client.s3_client self) bucket with
    | Ret _ => Ret true
    | Raise (ClientError code) =>
        Ret (bool_decide (code = "BucketAlreadyExists"))
    | Raise e => Raise e
    end.
Proof.
  unfold S3Client.download_model, S3Client.list_models,
    S3Client.upload_model, S3Client.delete_model, S3Client.check_connection,
    S3Client.create_bucket, try_catch, joblib_load, returned.
  split_and!.
  - destruct (boto3.download_file _ _ _) as [[|v]|e]; reflexivity.
  - destruct (boto3.list_objects_v2 _ _ _) as [[keys|]|e]; reflexivity.
  - destruct (joblib_dump E obj) as [tmp_file|e]; simpl; [|reflexivity].
    destruct (boto3.upload_file _ _ _ _); reflexivity.
  - destruct (boto3.delete_object _ _ _); reflexivity.
  - destruct (boto3.list_buckets _); reflexivity.
  - destruct (boto3.create_bucket _ _) as [|[]]; try reflexivity.
    case_bool_decide; reflexivity.
Qed.

(** ** C9: the model check comes before the size check *)

(** C9. In [batch_predict] a batch of more than 100 items submitted
    while no model is available is answered with the service-unavailable
    error 503, not with the over-limit error 400; the limit is enforced
    only once a model is loaded. *)
Theorem batch_unavailable_before_limit model_loader texts :
  (100 < length texts)%nat →
  (app.unavailable model_loader = true →
   app.batch_predict model_loader texts
     = Raise (HTTPException 503 "Modelo não está disponível")) ∧
  (app.unavailable model_loader = false →
   app.batch_predict model_loader texts
     = Raise (HTTPException 400 "Máximo de 100 textos por requisição")).
Proof.
  intros Hlen. apply Nat.ltb_lt in Hlen.
  unfold app.batch_predict, app.endpoint, try_catch.
  split; intros ->; [reflexivity|]. by rewrite Hlen.
Qed.

(** The theorem at work on 101 items, without and with a model. *)
Lemma batch_unavailable_before_limit_witness :
  (100 < length (replicate 101 "Rain expected"))%nat ∧
  app.unavailable None = true ∧
  app.unavailable (Some (ModelLoader.init E_nothing default_config)) = true ∧
  app.batch_predict None (replicate 101 "Rain expected")
    = Raise (HTTPException 503 "Modelo não está disponível") ∧
  app.batch_predict (Some toy_loader) (replicate 101 "Rain expected")
    = Raise (HTTPException 400 "Máximo de 100 textos por requisição").
Proof.
  assert (Hlen : (100 < length (replicate 101 "Rain expected"))%nat)
    by (rewrite length_replicate; lia).
  split_and!; [exact Hlen|reflexivity|reflexivity| |].
  - exact (proj1 (batch_unavailable_before_limit None _ Hlen) eq_refl).
  - exact (proj2 (batch_unavailable_before_limit (Some toy_loader) _ Hlen)
                 eq_refl).
Defined.

(** ** C10: the local tier takes the first [.joblib] file *)

Lemma load_if_exists_file entries name v old :
  find_entry entries name = Some (File (Pickled v)) →
  load_if_exists (Dir entries) name old = Ret v.
Proof.
  intros H. unfold load_if_exists, file_exists, load_file. by rewrite H.
Qed.

(** C10. The local tier loads as the model the first name of the
    directory listing that ends in [.joblib], whatever that name is, and
    the vectorizer from [vectorizer.joblib]: when that first file holds an
    artifact [m] (an object that deserializes and is true) and
    [vectorizer.joblib] holds an artifact [v], the tier ends with [m] in
    [model] and [v] in [vectorizer] and reports success with source
    ["local"]. The fixed vectorizer name is not excluded: when the first
    such name is [vectorizer.joblib] itself, the artifact of that file ends
    up in both [model] and [vectorizer] and the tier still reports
    success. *)
Theorem local_tier_takes_first_joblib E s tr entries f m :
  models_dir_content E = Dir entries →
  head (model_files entries) = Some f →
  find_entry entries f = Some (File (Pickled m)) →
  truth m = true →
  (∀ v,
     find_entry entries "vectorizer.joblib" = Some (File (Pickled v)) →
     truth v = true →
     ∃ s',
       _load_local_fallback E (Frame s tr)
         = (Ret true, Frame s' (tr ++ [(M_load_local_fallback, s)])) ∧
       model s' = m ∧ vectorizer s' = v ∧
       source s' = Some (IStr "local") ∧
       model_info s' !! "model_path"
         = Some (IStr (path_join (models_dir E) f))) ∧
  (f = "vectorizer.joblib" →
   ∃ s',
     _load_local_fallback E (Frame s tr)
       = (Ret true, Frame s' (tr ++ [(M_load_local_fallback, s)])) ∧
     model s' = m ∧ vectorizer s' = m ∧
     source s' = Some (IStr "local")).
Proof.
  intros Hd Hhead Hf Htm.
  assert (Hgen : ∀ v,
     find_entry entries "vectorizer.joblib" = Some (File (Pickled v)) →
     truth v = true →
     ∃ s',
       _load_local_fallback E (Frame s tr)
         = (Ret true, Frame s' (tr ++ [(M_load_local_fallback, s)])) ∧
       model s' = m ∧ vectorizer s' = v ∧
       source s' = Some (IStr "local") ∧
       model_info s' !! "model_path"
         = Some (IStr (path_join (models_dir E) f))).
  { intros v Hv Htv.
    assert (Hok : local_ok E s f m v).
    { exists entries. rewrite Hd.
      split_and!; try done; by apply load_if_exists_file. }
    destruct (local_spec E s tr) as
      [(f' & m' & v' & s' & Hok' & Heq & _ & Hm' & Hv' & Hsrc & Hpath & _)
      |(Hno & _)]; [|destruct (Hno f m v Hok)].
    exists s'. destruct Hok' as (entries' & Hd' & Hh' & Hlm & Hlv & _).
    rewrite Hd in Hd', Hlm, Hlv. injection Hd' as <-.
    rewrite Hhead in Hh'. injection Hh' as <-.
    rewrite (load_if_exists_file _ _ _ _ Hf) in Hlm.
    rewrite (load_if_exists_file _ _ _ _ Hv) in Hlv.
    injection Hlm as <-. injection Hlv as <-. done. }
  split; [exact Hgen|].
  intros ->. destruct (Hgen m Hf Htm) as (s' & ? & ? & ? & ? & _). eauto.
Qed.

(** The theorem at work on the directory written by the trainer. *)
Lemma local_tier_takes_first_joblib_witness :
  head (model_files
          [("vectorizer.joblib", File (Pickled (Some toy_vectorizer)));
           ("logistic_regression.joblib",
            File (Pickled (Some toy_classifier)));
           ("random_forest.joblib", File (Pickled (Some toy_forest)))])
    = Some "vectorizer.joblib" ∧
  ∃ s',
    _load_local_fallback E_vectorizer_first
        (Frame (ModelLoader.init E_vectorizer_first default_config) [])
      = (Ret true,
         Frame s' [(M_load_local_fallback,
                    ModelLoader.init E_vectorizer_first default_config)]) ∧
    model s' = Some toy_vectorizer ∧
    vectorizer s' = Some toy_vectorizer ∧
    source s' = Some (IStr "local").
Proof.
  split; [reflexivity|].
  refine (proj2 (local_tier_takes_first_joblib E_vectorizer_first
            (ModelLoader.init E_vectorizer_first default_config) []
            _ "vectorizer.joblib" (Some toy_vectorizer)
            eq_refl eq_refl eq_refl eq_refl) eq_refl).
Defined.

(** * Further properties *)

(** ** Blank texts *)

Lemma lstrip_empty (s : list N) : lstrip s = [] ↔ forallb isspace s = true.
Proof.
  induction s as [|c s IH]; simpl; [done|].
  destruct (isspace c); simpl; [exact IH|]. split; discriminate.
Qed.

Lemma forallb_rev {A} (f : A → bool) (l : list A) :
  forallb f (List.rev l) = forallb f l.
Proof.
  induction l as [|x l IH]; simpl; [done|].
  rewrite forallb_app, IH. simpl. rewrite andb_true_r. apply andb_comm.
Qed.

Lemma lstrip_forallb (s : list N) :
  forallb isspace (lstrip s) = forallb isspace s.
Proof.
  induction s as [|c s IH]; simpl; [done|].
  destruct (isspace c) eqn:Hc; simpl; [done|]. by rewrite Hc.
Qed.

(** ** What [predict] returns *)

Lemma fold_max_spec (rest : list Q) (x : Q) :
  let c := fold_left (fun max_item item =>
                        if gt item max_item then item else max_item) rest x in
  (c = x ∨ c ∈ rest) ∧ (x <= c)%Q ∧ Forall (fun y => (y <= c)%Q) rest.
Proof.
  revert x. induction rest as [|y rest IH]; intros x; cbv zeta in *; simpl.
  - split_and!; [by left|apply Qle_refl|constructor].
  - destruct (gt y x) eqn:Hgt; unfold gt in Hgt.
    + apply negb_true_iff in Hgt.
      assert (Hlt : (x <= y)%Q).
      { destruct (Qlt_le_dec x y) as [?|Hyx]; [by apply Qlt_le_weak|].
        apply Qle_bool_iff in Hyx. congruence. }
      destruct (IH y) as (Hin & Hy & Hall). split_and!.
      * right. destruct Hin as [->|?]; [by left|by right].
      * by eapply Qle_trans.
      * by constructor.
    + apply negb_false_iff, Qle_bool_iff in Hgt.
      destruct (IH x) as (Hin & Hx & Hall). split_and!; [|done|].
      * destruct Hin; [by left|right; by right].
      * constructor; [|done]. by eapply Qle_trans.
Qed.

Lemma max_spec l c :
  max l = Ret c → c ∈ l ∧ Forall (fun y => (y <= c)%Q) l.
Proof.
  destruct l as [|x rest]; simpl; [done|]. intros [= <-].
  destruct (fold_max_spec rest x) as (Hin & Hx & Hall). split.
  - destruct Hin as [->|?]; [by left|by right].
  - by constructor.
Qed.

(** Everything a returned prediction was computed from. *)
Lemma predict_ret_inv s text r :
  predict s text = Ret r →
  is_model_loaded s = true ∧
  ∃ X cls probs,
    call_method (ModelLoader.vectorizer s) "transform" transform [text] = Ret X ∧
    (call_method (model s) "predict" predict_ X ≫= fun p => index p 0)
      = Ret cls ∧
    (call_method (model s) "predict_proba" predict_proba X
       ≫= fun p => index p 0) = Ret probs ∧
    ∃ c p_real p_fake,
      max probs = Ret c ∧ probs !! 0%nat = Some p_real ∧
      probs !! 1%nat = Some p_fake ∧
      r = Result (if bool_decide (cls = 1%Z) then "fake" else "real") c
                 (<["real" := p_real]> (<["fake" := p_fake]> ∅)) None.
Proof.
  unfold predict, try_catch.
  destruct (is_model_loaded s); simpl; [|done]. intros H. split; [done|].
  destruct (call_method (ModelLoader.vectorizer s) "transform" transform [text])
    as [X|] eqn:HX; simpl in H; [|done].
  destruct (call_method (model s) "predict" predict_ X)
    as [preds|] eqn:Hp; simpl in H; [|done].
  destruct (index preds 0) as [cls|] eqn:Hcls; simpl in H; [|done].
  destruct (call_method (model s) "predict_proba" predict_proba X)
    as [probas|] eqn:Hpp; simpl in H; [|done].
  destruct (index probas 0) as [probs|] eqn:Hprobs; simpl in H; [|done].
  destruct (max probs) as [c|] eqn:Hc; simpl in H; [|done].
  unfold index in H.
  destruct (probs !! 0%nat) as [p_real|] eqn:H0; simpl in H; [|done].
  destruct (probs !! 1%nat) as [p_fake|] eqn:H1; simpl in H; [|done].
  injection H as <-.
  exists X, cls, probs.
  split_and!; [done|rewrite Hp; exact Hcls|rewrite Hpp; exact Hprobs|].
  by exists c, p_real, p_fake.
Qed.

Lemma predict_error_none s text r : predict s text = Ret r → error r = None.
Proof.
  intros H. apply predict_ret_inv in H as (_ & X & cls & probs & _ & _ & _ & H).
  by destruct H as (c & p_real & p_fake & _ & _ & _ & ->).
Qed.

(** X1. Whenever [predict] returns, the label is ["real"] or ["fake"],
    there is no ["error"] key, the probabilities dictionary has exactly
    the keys ["real"] and ["fake"], holding the first two entries of the
    row of probabilities the model gave for the text, and the confidence
    is one of the entries of that row (whatever the number of classes of
    the model). *)
Theorem predict_answer_shape s text r :
  predict s text = Ret r →
  (prediction r = "real" ∨ prediction r = "fake") ∧
  error r = None ∧
  ∃ X row p_real p_fake,
    call_method (ModelLoader.vectorizer s) "transform" transform [text]
      = Ret X ∧
    (call_method (model s) "predict_proba" predict_proba X
       ≫= fun p => index p 0) = Ret row ∧
    row !! 0%nat = Some p_real ∧
    row !! 1%nat = Some p_fake ∧
    probabilities r = <["real" := p_real]> (<["fake" := p_fake]> ∅) ∧
    confidence r ∈ row.
Proof.
  intros H.
  apply predict_ret_inv in H as (_ & X & cls & probs & HX & _ & Hrow & H).
  destruct H as (c & p_real & p_fake & Hc & H0 & H1 & ->). simpl.
  apply max_spec in Hc as [Hin _].
  split_and!; [case_bool_decide; auto|done|].
  exists X, probs, p_real, p_fake. split_and!; done.
Qed.

(** The theorem at work on the toy pair. *)
Lemma predict_answer_shape_witness :
  predict toy_loader "Rain expected"
    = Ret (Result "real" (7 # 10)
                  (<["real" := 7 # 10]> (<["fake" := 3 # 10]> ∅)) None) ∧
  ∃ row : list Q, (7 # 10) ∈ row.
Proof.
  assert (H : predict toy_loader "Rain expected"
    = Ret (Result "real" (7 # 10)
                  (<["real" := 7 # 10]> (<["fake" := 3 # 10]> ∅)) None))
    by (vm_compute; reflexivity).
  split; [exact H|].
  destruct (predict_answer_shape _ _ _ H)
    as (_ & _ & X & row & p_real & p_fake & _ & _ & _ & _ & _ & Hin).
  exists row. exact Hin.
Defined.

(** ** The prediction endpoints *)

Lemma strip_blank text :
  str_truth (strip text) = negb (all_whitespace text).
Proof.
  unfold strip, rstrip, all_whitespace.
  destruct (forallb isspace (utf8_decode text)) eqn:Hw; simpl.
  - apply lstrip_empty in Hw. rewrite Hw. reflexivity.
  - destruct (List.rev (lstrip (List.rev (lstrip (utf8_decode text)))))
      eqn:Hr; [|done].
    apply (f_equal (@List.rev N)) in Hr. rewrite rev_involutive in Hr.
    simpl in Hr. apply lstrip_empty in Hr.
    rewrite forallb_rev, lstrip_forallb, Hw in Hr. done.
Qed.

(** X2. The complete table of [POST /predict]. It answers with a
    prediction exactly when a model is loaded, the text has a character
    that is not whitespace and [predict] returns, and the answer is then
    the value of [predict]. Otherwise it raises an [HTTPException]: 503
    when no model is available (whatever the text), else 400 when the
    text is empty or all whitespace, else 500 when [predict] raises.
    Nothing else escapes the endpoint. *)
Theorem predict_endpoint_answers model_loader text :
  match app.predict_fake_news model_loader text with
  | Ret r =>
      ∃ ml, model_loader = Some ml ∧ is_model_loaded ml = true ∧
            all_whitespace text = false ∧ predict ml text = Ret r
  | Raise e =>
      (app.unavailable model_loader = true ∧
       e = HTTPException 503
             "Modelo não está disponível. Tente novamente mais tarde.")
      ∨ (app.unavailable model_loader = false ∧
         all_whitespace text = true ∧
         e = HTTPException 400 "Texto da notícia não pode estar vazio")
      ∨ (∃ ml, model_loader = Some ml ∧ is_model_loaded ml = true ∧
               all_whitespace text = false ∧ raises (predict ml text) ∧
               e = HTTPException 500 "Erro interno na predição")
  end.
Proof.
  unfold app.predict_fake_news, app.endpoint, try_catch.
  destruct (app.unavailable model_loader) eqn:Hun; simpl; [by left|].
  rewrite strip_blank, negb_involutive.
  destruct (all_whitespace text) eqn:Hw; simpl; [right; by left|].
  destruct model_loader as [ml|]; [|done]. simpl in Hun.
  apply negb_false_iff in Hun. simpl.
  destruct (predict ml text) as [r|e] eqn:Hp; simpl.
  - pose proof (predict_error_none ml text r Hp) as Herr.
    exists ml. destruct r; simpl in *. by subst.
  - apply predict_raises_RuntimeError in Hp as Hmsg. destruct Hmsg as [msg ->].
    right; right. exists ml. by rewrite Hp.
Qed.

(** What the loop returned was built entry by entry. *)
Lemma batch_loop_ret_inv ml texts results out :
  app.batch_loop ml texts results = Ret out →
  ∃ new, out = results ++ new ∧ Forall2 (batch_entry ml) texts new.
Proof.
  revert results. induction texts as [|text rest IH]; intros results; simpl.
  - intros [= <-]. exists []. by rewrite app_nil_r.
  - destruct (str_truth (strip text)) eqn:Hb.
    + destruct (predict ml text) as [r|] eqn:Hp; simpl; [|done].
      intros H. apply IH in H as (new & -> & Hnew).
      exists (r :: new). rewrite <- app_assoc. split; [done|].
      constructor; [|done]. unfold batch_entry. by rewrite Hb.
    + intros H. apply IH in H as (new & -> & Hnew).
      exists (app.empty_text_entry :: new). rewrite <- app_assoc.
      split; [done|]. constructor; [|done]. unfold batch_entry. by rewrite Hb.
Qed.

(** When the loop raises, [predict] raised on an item that is not blank. *)
Lemma batch_loop_raise_inv ml texts results e :
  app.batch_loop ml texts results = Raise e →
  ∃ text, text ∈ texts ∧ all_whitespace text = false ∧
          raises (predict ml text).
Proof.
  revert results. induction texts as [|text rest IH]; intros results; simpl.
  - done.
  - rewrite strip_blank.
    destruct (all_whitespace text) eqn:Hw; simpl.
    + intros H. apply IH in H as (bad & ? & ? & ?).
      exists bad. split_and!; [by right|done..].
    + destruct (predict ml text) as [r|e'] eqn:Hp; simpl.
      * intros H. apply IH in H as (bad & ? & ? & ?).
        exists bad. split_and!; [by right|done..].
      * intros _. exists text. rewrite Hp. split_and!; [by left|done..].
Qed.

(** X3. Whenever [POST /batch_predict] answers with predictions, a model
    is loaded, the batch has at most 100 texts, and the answer has exactly
    one entry per text, in the order of the texts: the error entry for a
    blank text and the value of [predict] for any other. *)
Theorem batch_answer_shape model_loader texts results :
  app.batch_predict model_loader texts = Ret results →
  ∃ ml,
    model_loader = Some ml ∧ is_model_loaded ml = true ∧
    (length texts ≤ 100)%nat ∧
    length results = length texts ∧
    Forall2 (batch_entry ml) texts results.
Proof.
  unfold app.batch_predict, app.endpoint, try_catch.
  destruct (app.unavailable model_loader) eqn:Hun; simpl; [done|].
  destruct (100 <? length texts)%nat eqn:Hlen; simpl; [done|].
  apply Nat.ltb_ge in Hlen.
  destruct model_loader as [ml|]; [|done]. simpl in *.
  apply negb_false_iff in Hun.
  destruct (app.batch_loop ml texts []) as [out|e] eqn:Hloop;
    [|by destruct e].
  intros [= <-]. apply batch_loop_ret_inv in Hloop as (new & -> & Hnew).
  exists ml. split_and!; try done.
  simpl. symmetry. by eapply Forall2_length.
Qed.

(** The theorem at work on the batch of five. *)
Lemma batch_answer_shape_witness :
  ∃ results,
    app.batch_predict (Some toy_loader) five_texts = Ret results ∧
    length results = 5%nat.
Proof.
  destruct (app.batch_predict (Some toy_loader) five_texts)
    as [results|] eqn:H; [|vm_compute in H; discriminate H].
  exists results. split; [reflexivity|].
  destruct (batch_answer_shape _ _ _ H) as (ml & _ & _ & _ & Hlen & _).
  exact Hlen.
Defined.

(** X4. Whenever [POST /batch_predict] fails, it raises one of three
    [HTTPException]s: 503 when no model is available (whatever the size
    of the batch), else 400 when the batch has more than 100 texts, else
    500, and then [predict] raised on some text of the batch that is not
    blank. Nothing else escapes the endpoint. *)
Theorem batch_failures model_loader texts e :
  app.batch_predict model_loader texts = Raise e →
  (app.unavailable model_loader = true ∧
   e = HTTPException 503 "Modelo não está disponível")
  ∨ (app.unavailable model_loader = false ∧ (100 < length texts)%nat ∧
     e = HTTPException 400 "Máximo de 100 textos por requisição")
  ∨ (∃ ml text,
       model_loader = Some ml ∧ is_model_loaded ml = true ∧
       (length texts ≤ 100)%nat ∧ text ∈ texts ∧
       all_whitespace text = false ∧ raises (predict ml text) ∧
       e = HTTPException 500 "Erro interno na predição em lote").
Proof.
  unfold app.batch_predict, app.endpoint, try_catch.
  destruct (app.unavailable model_loader) eqn:Hun; simpl.
  { intros [= <-]. by left. }
  destruct (100 <? length texts)%nat eqn:Hlen; simpl.
  { intros [= <-]. apply Nat.ltb_lt in Hlen. right. by left. }
  apply Nat.ltb_ge in Hlen.
  destruct model_loader as [ml|]; [|done]. simpl in *.
  apply negb_false_iff in Hun.
  destruct (app.batch_loop ml texts []) as [out|e'] eqn:Hloop; [done|].
  pose proof (batch_loop_raises_RuntimeError _ _ _ _ Hloop) as [msg ->].
  apply batch_loop_raise_inv in Hloop as (text & ? & ? & ?).
  intros [= <-]. right; right. by exists ml, text.
Qed.

(** The theorem at work: the vectorizer was adopted as the model. *)
Lemma batch_failures_witness :
  app.batch_predict (Some (started E_vectorizer_first))
                    ["Council approves budget"]
    = Raise (HTTPException 500 "Erro interno na predição em lote") ∧
  raises (predict (started E_vectorizer_first) "Council approves budget").
Proof.
  assert (H : app.batch_predict (Some (started E_vectorizer_first))
                    ["Council approves budget"]
    = Raise (HTTPException 500 "Erro interno na predição em lote"))
    by (vm_compute; reflexivity).
  split; [exact H|].
  destruct (batch_failures _ _ _ H) as [[_ [=]]|[(_ & _ & [=])|Hbad]].
  destruct Hbad as (ml & text & [= <-] & _ & _ & Hin & _ & Hr & _).
  apply list_elem_of_singleton in Hin as ->. exact Hr.
Defined.

(** X5. In an answer of [POST /batch_predict] the error entries are
    exactly the entries of the texts that are empty or all whitespace: a
    prediction is never mistaken for an error entry. *)
Theorem batch_error_entries_are_the_blank_texts model_loader texts results :
  app.batch_predict model_loader texts = Ret results →
  Forall2 (fun text r =>
             r = app.empty_text_entry ↔ all_whitespace text = true)
          texts results.
Proof.
  unfold app.batch_predict, app.endpoint, try_catch.
  destruct (app.unavailable model_loader); simpl; [done|].
  destruct (100 <? length texts)%nat; simpl; [done|].
  destruct model_loader as [ml|]; [|done]. simpl.
  destruct (app.batch_loop ml texts []) as [out|e] eqn:Hloop;
    [|by destruct e].
  intros [= <-]. apply batch_loop_ret_inv in Hloop as (new & -> & Hnew).
  simpl. eapply Forall2_impl; [exact Hnew|].
  intros text r. unfold batch_entry. rewrite strip_blank.
  destruct (all_whitespace text); simpl.
  - intros ->. done.
  - intros Hp. split; [|done]. intros ->.
    apply predict_error_none in Hp. discriminate Hp.
Qed.

(** The theorem at work on the batch of five. *)
Lemma batch_error_entries_are_the_blank_texts_witness :
  ∃ results,
    app.batch_predict (Some toy_loader) five_texts = Ret results ∧
    results !! 2%nat = Some app.empty_text_entry ∧
    results !! 0%nat ≠ Some app.empty_text_entry.
Proof.
  destruct (app.batch_predict (Some toy_loader) five_texts)
    as [results|] eqn:H; [|vm_compute in H; discriminate H].
  exists results.
  pose proof (batch_error_entries_are_the_blank_texts _ _ _ H) as Hall.
  split; [reflexivity|]. split.
  - destruct (Forall2_lookup_l _ _ _ 2%nat "   " Hall eq_refl)
      as (r & -> & Hr). f_equal. by apply Hr.
  - destruct (Forall2_lookup_l _ _ _ 0%nat "Quiet day in town" Hall eq_refl)
      as (r & -> & Hr). intros [= ->].
    assert (Hw : all_whitespace "Quiet day in town" = true) by by apply Hr.
    discriminate Hw.
Defined.

(** X6. With a loaded model, a batch of at most 100 texts that are all
    blank (in particular the empty batch) is always answered, with one
    error entry per text, whether or not the model is able to predict. *)
Theorem blank_batch_never_fails ml texts :
  is_model_loaded ml = true →
  (length texts ≤ 100)%nat →
  Forall (fun text => all_whitespace text = true) texts →
  app.batch_predict (Some ml) texts
    = Ret (replicate (length texts) app.empty_text_entry).
Proof.
  intros Hloaded Hlen Hblank.
  unfold app.batch_predict, app.endpoint, app.unavailable, try_catch.
  rewrite Hloaded. simpl.
  assert (Hle : (100 <? length texts)%nat = false) by (apply Nat.ltb_ge; lia).
  rewrite Hle. simpl.
  assert (Hloop : ∀ results,
    app.batch_loop ml texts results
      = Ret (results ++ replicate (length texts) app.empty_text_entry)).
  { clear Hlen Hle. induction Hblank as [|text rest Hw _ IH]; intros results.
    - simpl. by rewrite app_nil_r.
    - simpl. rewrite strip_blank, Hw. simpl. rewrite IH.
      by rewrite <- app_assoc. }
  by rewrite Hloop.
Qed.

(** The theorem at work where [predict] always raises. *)
Lemma blank_batch_never_fails_witness :
  is_model_loaded (started E_vectorizer_first) = true ∧
  app.batch_predict (Some (started E_vectorizer_first)) [""; "  "]
    = Ret [app.empty_text_entry; app.empty_text_entry].
Proof.
  split; [reflexivity|].
  apply (blank_batch_never_fails (started E_vectorizer_first) [""; "  "]).
  - reflexivity.
  - simpl. lia.
  - repeat constructor.
Defined.

(** ** The loader, its reports and the service around it *)

Lemma truth_not_None (v : pyval) : truth v = true → v ≠ None.
Proof. by destruct v. Qed.

(** After a successful load both fields are set. *)
Lemma chain_run_loaded E s fr :
  chain_run E s true fr → is_model_loaded (self fr) = true.
Proof.
  unfold is_model_loaded.
  inversion 1 as [m v s' Hok|s1 f m v s' _ _ _ _ Hok|s1 s2 b s']; subst; simpl.
  - destruct Hok as (? & ? & ? & ? & _ & _ & _ & _ & _ & Hm & _ & Hv).
    apply truth_not_None in Hm, Hv.
    by rewrite !bool_decide_eq_true_2.
  - destruct Hok as (? & _ & _ & _ & _ & Hm & Hv).
    apply truth_not_None in Hm, Hv.
    by rewrite !bool_decide_eq_true_2.
  - match goal with
    | Ht : true = true → _ |- _ =>
        destruct (Ht eq_refl) as (m & v & _ & -> & -> & _)
    end. done.
Qed.

(** [load_model] never assigns the configuration or the client. *)
Lemma chain_run_same_client E s b fr :
  chain_run E s b fr → same_client s (self fr).
Proof.
  unfold same_client.
  inversion 1; subst; simpl; unfold same_client in *;
    destruct_and?; split; congruence.
Qed.

(** X7. After a load that reports success the loader is loaded: both
    fields are set, [get_model_info] reports ["loaded"] with the time of
    this load, and [GET /health] answers ["healthy"]. *)
Theorem successful_load_is_loaded E s fr :
  run (load_model E) s = (Ret true, fr) →
  is_model_loaded (self fr) = true ∧
  get_model_info (self fr)
    = LoadedInfo (model_info (self fr)) (Some (now E)) ∧
  app.health_check (Some (self fr))
    = Ret (app.Health "healthy"
             "API e modelo estão funcionando corretamente").
Proof.
  intros Hrun.
  destruct (load_model_chain_run E s) as (b & fr' & Heq & Hchain).
  rewrite Hrun in Heq. injection Heq as <- <-.
  pose proof (chain_run_loaded _ _ _ Hchain) as Hloaded.
  assert (Hll : last_loaded (self fr) = Some (now E)).
  { inversion Hchain as [m v s'|s1 f m v s'|s1 s2 b' s']; subst; simpl;
      [done..|].
    match goal with
    | Ht : true = true → _ |- _ =>
        by destruct (Ht eq_refl) as (m & v & _ & _ & _ & _ & _ & ?)
    end. }
  unfold get_model_info, app.health_check, app.unavailable, try_catch.
  rewrite Hloaded, Hll. done.
Qed.

(** The theorem at work on the placeholder run. *)
Lemma successful_load_is_loaded_witness :
  run (load_model E_placeholder)
      (ModelLoader.init E_placeholder default_config)
    = (Ret true,
       snd (run (load_model E_placeholder)
                (ModelLoader.init E_placeholder default_config))) ∧
  is_model_loaded (started E_placeholder) = true.
Proof.
  assert (Hrun :
    run (load_model E_placeholder)
        (ModelLoader.init E_placeholder default_config)
      = (Ret true,
         snd (run (load_model E_placeholder)
                  (ModelLoader.init E_placeholder default_config))))
    by (vm_compute; reflexivity).
  split; [exact Hrun|].
  exact (proj1 (successful_load_is_loaded _ _ _ Hrun)).
Defined.

(** X8. No load, successful or not, changes [s3_config] or [s3_client]:
    every reload reads the same locator through the same client. *)
Theorem load_model_keeps_configuration E s :
  s3_config (self (snd (run (load_model E) s))) = s3_config s ∧
  s3_client (self (snd (run (load_model E) s))) = s3_client s.
Proof.
  destruct (load_model_chain_run E s) as (b & fr & -> & Hchain).
  exact (chain_run_same_client _ _ _ _ Hchain).
Qed.

(** X9. [POST /model/reload] answers 500, not 503, when there is no
    loader, because its only handler also catches the [HTTPException] of
    the body. With a loader it always answers with the success message,
    also when [load_model] returned [False], and the loader is left as the
    load left it. *)
Theorem reload_endpoint_answers E model_loader :
  match model_loader with
  | None =>
      app.reload_model E None
        = (Raise (HTTPException 500 "Erro ao recarregar modelo"), None)
  | Some ml =>
      app.reload_model E (Some ml)
        = (Ret "Modelo recarregado com sucesso",
           Some (self (snd (run (load_model E) ml))))
  end.
Proof.
  destruct model_loader as [ml|]; [|reflexivity].
  unfold app.reload_model.
  destruct (load_model_chain_run E ml) as (b & fr & -> & _). reflexivity.
Qed.

(** X10. What [startup_event] leaves in the module-level [model_loader].
    When the guarded import at the top of [app.py] failed, [ModelLoader]
    is unbound, the [NameError] is swallowed by the handler of
    [startup_event] and the global stays [None]: [GET /health] answers
    ["degraded"] and [POST /predict] answers 503. When the import
    succeeded, the global holds a loader whose configuration has the four
    keys [load_model] reads, taken from the process environment or from
    the defaults; if moreover the placeholder can be built, the service
    comes up loaded and healthy, whatever the state of the store and of
    the local directory. *)
Theorem startup_event_outcome E environ :
  (S3Client_importable E = false →
   app.startup_event E environ = None ∧
   app.health_check (app.startup_event E environ)
     = Ret (app.Health "degraded"
              "API funcionando, mas modelo não carregado") ∧
   ∀ text, app.predict_fake_news (app.startup_event E environ) text
     = Raise (HTTPException 503
                "Modelo não está disponível. Tente novamente mais tarde.")) ∧
  (S3Client_importable E = true →
   ∃ ml,
    app.startup_event E environ = Some ml ∧
    s3_config ml !! "endpoint_url"
      = Some (app.getenv environ "S3_ENDPOINT" "http://localhost:4566") ∧
    s3_config ml !! "bucket_name"
      = Some (app.getenv environ "S3_BUCKET" "fake-news-models") ∧
    s3_config ml !! "model_key"
      = Some (app.getenv environ "MODEL_KEY" "models/best_model.joblib") ∧
    s3_config ml !! "vectorizer_key"
      = Some (app.getenv environ "VECTORIZER_KEY"
                         "models/vectorizer.joblib") ∧
    ((∃ m v, dummy_ok E m v) →
     is_model_loaded ml = true ∧
     app.health_check (Some ml)
       = Ret (app.Health "healthy"
                "API e modelo estão funcionando corretamente"))).
Proof.
  unfold app.startup_event, app.imported_ModelLoader. split; intros ->.
  { split_and!; reflexivity. }
  set (cfg := <["endpoint_url" := _]> _).
  destruct (load_model_chain_run E (ModelLoader.init E cfg))
    as (b & fr & Heq & Hchain).
  rewrite Heq. simpl. exists (self fr). split; [done|].
  destruct (chain_run_same_client _ _ _ _ Hchain) as [Hcfg _].
  rewrite Hcfg. unfold ModelLoader.init. simpl. subst cfg.
  split_and!; try (by simplify_map_eq).
  intros (m & v & Hok).
  assert (b = true) as ->.
  { destruct b; [done|].
    inversion Hchain as [| |s1 s2 b' s']; subst.
    match goal with
    | Hf : false = false → _ |- _ => destruct (proj1 (Hf eq_refl) m v Hok)
    end. }
  pose proof (chain_run_loaded _ _ _ Hchain) as Hloaded.
  split; [done|].
  unfold app.health_check, app.unavailable, try_catch. by rewrite Hloaded.
Qed.

(** The theorem at work. With nothing but sklearn, and a bucket name
    taken from the environment, the service starts loaded; where the S3
    client module does not import, no loader is left at all. *)
Lemma startup_event_outcome_witness :
  (∃ ml,
    app.startup_event E_placeholder {["S3_BUCKET" := "staging-models"]}
      = Some ml ∧
    s3_config ml !! "bucket_name" = Some "staging-models" ∧
    is_model_loaded ml = true) ∧
  app.startup_event E_nothing ∅ = None.
Proof.
  split.
  - destruct (proj2 (startup_event_outcome E_placeholder
                       {["S3_BUCKET" := "staging-models"]}) eq_refl)
      as (ml & Heq & _ & Hbucket & _ & _ & Hup).
    exists ml. split_and!; [exact Heq|exact Hbucket|].
    apply Hup. exists toy_classifier, toy_vectorizer.
    exists sklearn_installed, unfit_classifier, unfit_vectorizer.
    eexists. split_and!; reflexivity.
  - exact (proj1 (proj1 (startup_event_outcome E_nothing ∅) eq_refl)).
Defined.

(** X11. A load can fail and still leave the loader loaded. With no S3
    client and no local directory, if sklearn constructs both estimators
    but fitting the vectorizer raises, [load_model] returns [False] while
    [model] and [vectorizer] hold the unfitted estimators: the loader
    counts as loaded and [GET /health] answers ["healthy"], with the
    provenance of the previous load (or none). *)
Theorem failed_fit_leaves_unfitted_pair E s sk m0 v0 :
  s3_client s = None →
  models_dir_content E = NoDir →
  sklearn E = Some sk →
  LogisticRegression sk = Ret m0 →
  TfidfVectorizer sk 100 = Ret v0 →
  raises (fit_transform sk v0 dummy_texts) →
  ∃ fr,
    run (load_model E) s = (Ret false, fr) ∧
    model (self fr) = Some m0 ∧ vectorizer (self fr) = Some v0 ∧
    is_model_loaded (self fr) = true ∧
    model_info (self fr) = model_info s ∧
    last_loaded (self fr) = last_loaded s ∧
    app.health_check (Some (self fr))
      = Ret (app.Health "healthy"
               "API e modelo estão funcionando corretamente").
Proof.
  intros Hcli Hd Hsk Hm Hv Hft.
  destruct s as [cfg cli m1 v1 info ll]. simpl in Hcli. subst cli.
  unfold run, load_model, _load_local_fallback, _load_dummy_model,
    import_sklearn.
  py_unfold. simpl. rewrite Hd. simpl. rewrite Hsk, Hm, Hv.
  destruct (fit_transform sk v0 dummy_texts) as [[v2 X]|e]; [done|].
  eexists. split; [reflexivity|]. simpl. done.
Qed.

(** The theorem at work on a fresh loader. *)
Lemma failed_fit_leaves_unfitted_pair_witness :
  ∃ fr,
    run (load_model E_fit_fails) (ModelLoader.init E_fit_fails default_config)
      = (Ret false, fr) ∧
    is_model_loaded (self fr) = true ∧
    model_info (self fr) = ∅.
Proof.
  destruct (failed_fit_leaves_unfitted_pair E_fit_fails
              (ModelLoader.init E_fit_fails default_config)
              sklearn_fit_fails unfit_classifier unfit_vectorizer)
    as (fr & Hrun & _ & _ & Hloaded & Hinfo & _);
    [reflexivity..|exact I|].
  exists fr. split_and!; [exact Hrun|exact Hloaded|exact Hinfo].
Defined.

Lemma dummy_ok_functional E m v m' v' :
  dummy_ok E m v → dummy_ok E m' v' → m = m' ∧ v = v'.
Proof.
  intros (sk & m0 & v0 & X & Hsk & Hm & Hv & Hft & Hfit)
         (sk' & m0' & v0' & X' & Hsk' & Hm' & Hv' & Hft' & Hfit').
  simplify_eq. rewrite Hm in Hm'. simplify_eq.
  rewrite Hv in Hv'. simplify_eq. rewrite Hft in Hft'. simplify_eq.
  rewrite Hfit in Hfit'. by simplify_eq.
Qed.

(** X12. Called directly on a loader in any state (as the tests do),
    [_load_dummy_model] returns [True] whenever the placeholder can be
    built; the two fields then hold the fitted placeholder pair, whatever
    they held before, the loader is loaded and the source is ["dummy"]. *)
Theorem dummy_model_from_any_state E s m v :
  dummy_ok E m v →
  ∃ s',
    run (_load_dummy_model E) s
      = (Ret true, Frame s' [(M_load_dummy_model, s)]) ∧
    model s' = Some m ∧ vectorizer s' = Some v ∧
    is_model_loaded s' = true ∧
    source s' = Some (IStr "dummy") ∧
    last_loaded s' = Some (now E).
Proof.
  intros Hok. unfold run.
  destruct (dummy_spec E s []) as (b & s' & Heq & _ & Ht & Hf & _).
  destruct b.
  - destruct (Ht eq_refl) as (m' & v' & Hok' & Hm & Hv & Hsrc & _ & Hll).
    destruct (dummy_ok_functional _ _ _ _ _ Hok Hok') as [-> ->].
    exists s'. split_and!; try done.
    unfold is_model_loaded. by rewrite Hm, Hv.
  - destruct (proj1 (Hf eq_refl) m v Hok).
Qed.

(** The theorem at work on a loader that already holds another pair. *)
Lemma dummy_model_from_any_state_witness :
  dummy_ok E_placeholder toy_classifier toy_vectorizer ∧
  ∃ s',
    run (_load_dummy_model E_placeholder) (started E_remote)
      = (Ret true, Frame s' [(M_load_dummy_model, started E_remote)]) ∧
    model s' = Some toy_classifier.
Proof.
  assert (Hok : dummy_ok E_placeholder toy_classifier toy_vectorizer).
  { exists sklearn_installed, unfit_classifier, unfit_vectorizer.
    eexists. split_and!; reflexivity. }
  split; [exact Hok|].
  destruct (dummy_model_from_any_state E_placeholder (started E_remote) _ _ Hok)
    as (s' & Hrun & Hm & _).
  by exists s'.
Defined.

(** ** Names ending in [.joblib] *)

Lemma string_length_app a b :
  String.length (a +:+ b) = (String.length a + String.length b)%nat.
Proof. induction a as [|c a IH]; simpl; [done|]. by rewrite IH. Qed.

Lemma substring_full s : String.substring 0 (String.length s) s = s.
Proof. induction s as [|c s IH]; simpl; [done|]. by rewrite IH. Qed.

Lemma substring_app_suffix p suffix :
  String.substring (String.length p) (String.length suffix) (p +:+ suffix)
    = suffix.
Proof. induction p as [|c p IH]; simpl; [apply substring_full|exact IH]. Qed.

Lemma substring_split s i :
  (i ≤ String.length s)%nat →
  s = String.substring 0 i s +:+ String.substring i (String.length s - i) s.
Proof.
  revert i. induction s as [|c s IH]; intros i Hi; simpl in *.
  - by destruct i.
  - destruct i as [|i]; simpl.
    + by rewrite substring_full.
    + change (String c s = String c (String.substring 0 i s +:+
                String.substring i (String.length s - i) s)).
      f_equal. apply IH. lia.
Qed.

(** [endswith] holds of the strings that are a stem followed by the
    suffix. *)
Lemma endswith_spec s suffix :
  endswith s suffix = true ↔ ∃ stem, s = stem +:+ suffix.
Proof.
  unfold endswith. split.
  - case_decide as Hk; [|done]. intros Heq%bool_decide_eq_true.
    exists (String.substring 0 (String.length s - String.length suffix) s).
    pose proof (substring_split s (String.length s - String.length suffix))
      as Hsplit.
    replace (String.length s - (String.length s - String.length suffix))%nat
      with (String.length suffix) in Hsplit by lia.
    rewrite Heq in Hsplit. apply Hsplit. lia.
  - intros [stem ->]. rewrite string_length_app.
    rewrite decide_True by lia. apply bool_decide_eq_true.
    replace (String.length stem + String.length suffix
             - String.length suffix)%nat with (String.length stem) by lia.
    apply substring_app_suffix.
Qed.

Lemma head_filter_split {A} (P : A → bool) (l : list A) x :
  head (List.filter P l) = Some x →
  ∃ before after,
    l = before ++ x :: after ∧ P x = true ∧
    Forall (fun y => P y = false) before.
Proof.
  induction l as [|y l IH]; simpl; [done|].
  destruct (P y) eqn:Hy; simpl.
  - intros [= ->]. exists [], l. by split_and!.
  - intros H. destruct (IH H) as (before & after & -> & ? & ?).
    exists (y :: before), after. split_and!; [done..|]. by constructor.
Qed.

(** X13. When [_load_local_fallback] itself reports success, the
    [model_path] it records is the path of a name of the directory
    listing that ends in [.joblib], and no name listed before it ends in
    [.joblib]: the model file is the first such name, and a file with
    another extension is never taken. *)
Theorem local_model_path_is_first_joblib_name E s tr s' :
  _load_local_fallback E (Frame s tr)
    = (Ret true, Frame s' (tr ++ [(M_load_local_fallback, s)])) →
  ∃ entries before stem after,
    models_dir_content E = Dir entries ∧
    entries.*1 = before ++ (stem +:+ ".joblib") :: after ∧
    Forall (fun name => ∀ p, name ≠ p +:+ ".joblib") before ∧
    model_info s' !! "model_path"
      = Some (IStr (path_join (models_dir E) (stem +:+ ".joblib"))).
Proof.
  intros Hrun.
  destruct (local_spec E s tr) as
    [(f & m & v & s'' & Hok & Heq & _ & _ & _ & _ & Hpath & _)
    |(_ & s2 & Heq & _)].
  - rewrite Hrun in Heq. injection Heq as <-.
    destruct Hok as (entries & Hd & Hhead & _).
    apply head_filter_split in Hhead as (before & after & Hl & Hf & Hb).
    apply endswith_spec in Hf as [stem ->].
    exists entries, before, stem, after. split_and!; try done.
    eapply Forall_impl; [exact Hb|]. intros name Hn p ->.
    assert (endswith (p +:+ ".joblib") ".joblib" = true)
      by (apply endswith_spec; eauto). congruence.
  - rewrite Hrun in Heq.
    destruct (dummy_spec E s2 (tr ++ [(M_load_local_fallback, s)]))
      as (b & s3 & Heq' & _).
    rewrite Heq' in Heq. injection Heq as _ _ Htr.
    apply (f_equal length) in Htr. rewrite !length_app in Htr.
    simpl in Htr. lia.
Qed.

(** The theorem at work on the directory written by the trainer. *)
Lemma local_model_path_is_first_joblib_name_witness :
  ∃ stem,
    model_info (started E_trained) !! "model_path"
      = Some (IStr (path_join models_path (stem +:+ ".joblib"))).
Proof.
  destruct (local_model_path_is_first_joblib_name E_trained
              (ModelLoader.init E_trained default_config) []
              (started E_trained))
    as (entries & before & stem & after & _ & _ & _ & Hpath).
  - vm_compute. reflexivity.
  - by exists stem.
Defined.

(** ** Saving the trained artifacts *)

Lemma app_suffix_inj a b suffix : a +:+ suffix = b +:+ suffix → a = b.
Proof.
  revert b. induction a as [|c a IH]; intros [|c' b] H.
  - done.
  - change (suffix = String c' b +:+ suffix) in H.
    apply (f_equal String.length) in H.
    rewrite string_length_app in H. simpl in H. lia.
  - change (String c a +:+ suffix = suffix) in H.
    apply (f_equal String.length) in H.
    rewrite string_length_app in H. simpl in H. lia.
  - change (String c (a +:+ suffix) = String c' (b +:+ suffix)) in H.
    injection H as -> H. f_equal. by apply IH.
Qed.

Lemma save_each_other E items d r d' name :
  train.save_each E items d = (r, d') →
  (∀ n, n ∈ items.*1 → name ≠ n +:+ ".joblib") →
  train.files_of d' !! name = train.files_of d !! name.
Proof.
  revert d. induction items as [|[n model] rest IH]; intros d; simpl.
  - by intros [= _ <-].
  - intros Hrun Hne. unfold train.dump in Hrun.
    destruct (joblib_dump E (Some model)) as [b|e].
    + rewrite (IH _ Hrun); [|intros n' Hn'; apply Hne; by right]. simpl.
      apply lookup_insert_ne. intros Heq. by apply (Hne n); [left|].
    + injection Hrun as _ <-. simpl.
      apply lookup_insert_ne. intros Heq. by apply (Hne n); [left|].
Qed.

(** X14. [save_models] writes only [vectorizer.joblib] and one
    [<name>.joblib] per model: whether it returns or raises, every other
    file of the output directory is as it was, and none is removed. *)
Theorem save_models_touches_only_its_files E trainer d r d' name :
  train.save_models E trainer d = (r, d') →
  name ≠ "vectorizer.joblib" →
  (∀ n, n ∈ (train.models trainer).*1 → name ≠ n +:+ ".joblib") →
  train.files_of d' !! name = train.files_of d !! name.
Proof.
  unfold train.save_models, train.makedirs, train.dump.
  intros Hrun Hv Hm.
  destruct d as [| |files]; simpl in Hrun.
  - destruct (joblib_dump E (Some (train.vectorizer trainer))) as [b|e].
    + rewrite (save_each_other _ _ _ _ _ _ Hrun Hm). simpl.
      by apply lookup_insert_ne.
    + injection Hrun as _ <-. simpl. by apply lookup_insert_ne.
  - by injection Hrun as _ <-.
  - destruct (joblib_dump E (Some (train.vectorizer trainer))) as [b|e].
    + rewrite (save_each_other _ _ _ _ _ _ Hrun Hm). simpl.
      by apply lookup_insert_ne.
    + injection Hrun as _ <-. simpl. by apply lookup_insert_ne.
Qed.

(** The theorem at work: a file of another run survives a save. *)
Lemma save_models_touches_only_its_files_witness :
  train.files_of
    (snd (train.save_models E_trained toy_trainer
            (train.Present {["svm.joblib" := File Corrupt]})))
    !! "svm.joblib"
  = Some (File Corrupt).
Proof.
  rewrite (save_models_touches_only_its_files E_trained toy_trainer
             (train.Present {["svm.joblib" := File Corrupt]})
             (fst (train.save_models E_trained toy_trainer
                     (train.Present {["svm.joblib" := File Corrupt]})))
             (snd (train.save_models E_trained toy_trainer
                     (train.Present {["svm.joblib" := File Corrupt]})))
             "svm.joblib").
  - reflexivity.
  - by destruct (train.save_models _ _ _).
  - discriminate.
  - intros n Hn. simpl in Hn.
    repeat (apply elem_of_cons in Hn as [->|Hn]; [discriminate|]).
    by apply elem_of_nil in Hn.
Defined.

Lemma find_entry_elem entries name x :
  NoDup entries.*1 →
  find_entry entries name = Some x ↔ (name, x) ∈ entries.
Proof.
  induction entries as [|[n y] rest IH]; simpl; intros Hnd.
  - split; [done|]. by intros ?%elem_of_nil.
  - apply NoDup_cons in Hnd as [Hn Hnd]. case_bool_decide as Heq.
    + subst n. split.
      * intros [= ->]. by left.
      * intros [[= ->]|Hin]%elem_of_cons; [done|].
        destruct Hn. apply list_elem_of_fmap. by exists (name, x).
    + rewrite (IH Hnd). split; [by right|].
      intros [[= -> ->]|Hin]%elem_of_cons; done.
Qed.

Lemma find_entry_listing files entries name :
  listing files entries → find_entry entries name = files !! name.
Proof.
  unfold listing. intros Hperm.
  assert (Hnd : NoDup entries.*1).
  { rewrite Hperm. apply NoDup_fst_map_to_list. }
  apply option_eq. intros x.
  rewrite (find_entry_elem _ _ _ Hnd), Hperm. apply elem_of_map_to_list.
Qed.

(** After the loop every file is a [.joblib] file holding one of the
    dumped objects, if it was so before. *)
Lemma save_each_artifacts E items (objs : list pyobj) d d' :
  train.save_each E items d = (Ret (), d') →
  (∀ o, o ∈ items.*2 →
        o ∈ objs ∧ joblib_dump E (Some o) = Ret (Pickled (Some o))) →
  (∀ name x, train.files_of d !! name = Some x →
     endswith name ".joblib" = true ∧
     ∃ o, o ∈ objs ∧ x = File (Pickled (Some o))) →
  (∀ name x, train.files_of d' !! name = Some x →
     endswith name ".joblib" = true ∧
     ∃ o, o ∈ objs ∧ x = File (Pickled (Some o))).
Proof.
  revert d. induction items as [|[n model] rest IH]; intros d; simpl.
  - by intros [= <-].
  - intros Hrun Hobjs Hinv. unfold train.dump in Hrun.
    destruct (Hobjs model) as [Hin Hdump]; [by left|].
    rewrite Hdump in Hrun.
    apply (IH _ Hrun); [intros o Ho; apply Hobjs; by right|]. simpl.
    intros name x. destruct (decide (name = n +:+ ".joblib")) as [->|Hne].
    + rewrite lookup_insert_eq. intros [= <-].
      split; [apply endswith_spec; eauto|eauto].
    + rewrite lookup_insert_ne by done. apply Hinv.
Qed.

(** X15. Saving and serving composed. Let [save_models] write a fresh
    directory, with [joblib.dump] and [joblib.load] inverse on the saved
    objects, every saved object true, and no model named ["vectorizer"].
    Then on any listing of that directory the local tier reports
    success: the vectorizer is the trainer's vectorizer and the model is
    the object of whichever file is listed first, so it is the vectorizer
    itself when [vectorizer.joblib] comes first. *)
Theorem trained_directory_loads E trainer d' entries s tr :
  train.save_models E trainer train.Absent = (Ret (), d') →
  (∀ o, o = train.vectorizer trainer ∨ o ∈ (train.models trainer).*2 →
        joblib_dump E (Some o) = Ret (Pickled (Some o)) ∧ truthy o = true) →
  "vectorizer" ∉ (train.models trainer).*1 →
  listing (train.files_of d') entries →
  models_dir_content E = Dir entries →
  ∃ s' first o,
    head entries.*1 = Some first ∧
    train.files_of d' !! first = Some (File (Pickled (Some o))) ∧
    _load_local_fallback E (Frame s tr)
      = (Ret true, Frame s' (tr ++ [(M_load_local_fallback, s)])) ∧
    model s' = Some o ∧
    vectorizer s' = Some (train.vectorizer trainer) ∧
    (first = "vectorizer.joblib" → model s' = vectorizer s').
Proof.
  intros Hsave Hgood Hname Hlist Hd.
  set (objs := train.vectorizer trainer :: (train.models trainer).*2).
  unfold train.save_models, train.makedirs, train.dump in Hsave.
  destruct (Hgood (train.vectorizer trainer)) as [Hdump _]; [by left|].
  rewrite Hdump in Hsave. simpl in Hsave.
  (* the vectorizer file *)
  assert (Hvec : train.files_of d' !! "vectorizer.joblib"
                 = Some (File (Pickled (Some (train.vectorizer trainer))))).
  { rewrite (save_each_other _ _ _ _ _ "vectorizer.joblib" Hsave).
    - simpl. by rewrite lookup_insert_eq.
    - intros n Hn Heq. apply (app_suffix_inj "vectorizer" n) in Heq.
      by subst n. }
  (* every file is an artifact *)
  assert (Hinv : ∀ name x, train.files_of d' !! name = Some x →
     endswith name ".joblib" = true ∧
     ∃ o, o ∈ objs ∧ x = File (Pickled (Some o))).
  { apply (save_each_artifacts _ _ objs _ _ Hsave).
    - intros o Ho. split; [by right|]. apply Hgood. by right.
    - simpl. intros name x.
      destruct (decide (name = "vectorizer.joblib")) as [->|Hne].
      + rewrite lookup_insert_eq. intros [= <-].
        split; [done|]. eexists. split; [by left|done].
      + rewrite lookup_insert_ne by done. by rewrite lookup_empty. }
  assert (Hfind : ∀ name,
    find_entry entries name = train.files_of d' !! name)
    by (intros; by apply find_entry_listing).
  (* all listed names end in .joblib *)
  assert (Hnames : Forall (fun n => endswith n ".joblib" = true) entries.*1).
  { apply Forall_forall. intros n [[n' x] [-> Hin]]%list_elem_of_fmap.
    simpl. unfold listing in Hlist. rewrite Hlist in Hin.
    apply elem_of_map_to_list in Hin. by destruct (Hinv _ _ Hin). }
  assert (Hfilter : model_files entries = entries.*1).
  { unfold model_files. induction Hnames as [|n l Hn _ IH]; simpl; [done|].
    by rewrite Hn, IH. }
  (* the first name *)
  destruct entries as [|[first x] rest] eqn:Hentries.
  { rewrite <- Hfind in Hvec. done. }
  rewrite <- Hentries in *.
  assert (Hhead : head entries.*1 = Some first) by by rewrite Hentries.
  assert (Hfirst : train.files_of d' !! first = Some x).
  { rewrite <- Hfind, Hentries. simpl. by rewrite bool_decide_eq_true_2. }
  destruct (Hinv _ _ Hfirst) as (_ & o & Ho & ->).
  assert (Htruth : truthy o = true).
  { apply Hgood. by apply elem_of_cons in Ho. }
  assert (Hok : local_ok E s first (Some o)
                         (Some (train.vectorizer trainer))).
  { exists entries. rewrite Hd, Hfilter.
    split_and!; try done.
    - apply load_if_exists_file. by rewrite Hfind.
    - apply load_if_exists_file. by rewrite Hfind.
    - simpl. by apply Hgood; left. }
  destruct (local_spec E s tr) as
    [(f & m & v & s' & Hok' & Heq & _ & Hm' & Hv' & _)
    |(Hno & _)]; [|destruct (Hno _ _ _ Hok)].
  destruct Hok' as (entries' & Hd' & Hh' & Hlm & Hlv & _).
  rewrite Hd in Hd', Hlm, Hlv. injection Hd' as <-.
  rewrite Hfilter, Hhead in Hh'. injection Hh' as <-.
  rewrite (load_if_exists_file _ _ (Some o)) in Hlm by by rewrite Hfind.
  rewrite (load_if_exists_file _ _ (Some (train.vectorizer trainer))) in Hlv
    by by rewrite Hfind.
  injection Hlm as <-. injection Hlv as <-.
  exists s', first, o. split_and!; try done.
  intros ->. rewrite Hm', Hv'. rewrite Hvec in Hfirst. by injection Hfirst as ->.
Qed.

(** The theorem at work: the trainer saves, the directory is listed
    with the forest first, and the forest is served. *)
Lemma trained_directory_loads_witness :
  train.save_models E_trained toy_trainer train.Absent
    = (Ret (), snd (train.save_models E_trained toy_trainer train.Absent)) ∧
  ∃ s',
    _load_local_fallback E_trained
        (Frame (ModelLoader.init E_trained default_config) [])
      = (Ret true,
         Frame s' [(M_load_local_fallback,
                    ModelLoader.init E_trained default_config)]) ∧
    model s' = Some toy_forest ∧
    vectorizer s' = Some toy_vectorizer.
Proof.
  assert (Hsave :
    train.save_models E_trained toy_trainer train.Absent
      = (Ret (), snd (train.save_models E_trained toy_trainer train.Absent)))
    by (vm_compute; reflexivity).
  split; [exact Hsave|].
  assert (Hfiles :
    map_to_list
      (train.files_of
         (snd (train.save_models E_trained toy_trainer train.Absent)))
    = [("vectorizer.joblib", File (Pickled (Some toy_vectorizer)));
       ("random_forest.joblib", File (Pickled (Some toy_forest)));
       ("logistic_regression.joblib", File (Pickled (Some toy_classifier)))])
    by (vm_compute; reflexivity).
  destruct (trained_directory_loads E_trained toy_trainer _
              [("random_forest.joblib", File (Pickled (Some toy_forest)));
               ("vectorizer.joblib", File (Pickled (Some toy_vectorizer)));
               ("logistic_regression.joblib",
                File (Pickled (Some toy_classifier)))]
              (ModelLoader.init E_trained default_config) [] Hsave)
    as (s' & first & o & Hhead & Hfirst & Hrun & Hm & Hv & _).
  - intros o [->|Ho]; [split; reflexivity|].
    assert (Hall : Forall (fun o => joblib_dump E_trained (Some o)
                                      = Ret (Pickled (Some o)) ∧
                                    truthy o = true)
                          [toy_classifier; toy_forest])
      by (repeat constructor).
    exact (proj1 (Forall_forall _ _) Hall o Ho).
  - assert (Hnot : Forall (fun n => n ≠ "vectorizer")
                          ["logistic_regression"; "random_forest"])
      by (repeat constructor; discriminate).
    intros Hin. exact (proj1 (Forall_forall _ _) Hnot _ Hin eq_refl).
  - unfold listing. rewrite Hfiles. apply perm_swap.
  - reflexivity.
  - injection Hhead as <-.
    assert (Hfirst' :
      train.files_of
        (snd (train.save_models E_trained toy_trainer train.Absent))
        !! "random_forest.joblib"
      = Some (File (Pickled (Some toy_forest)))) by (vm_compute; reflexivity).
    rewrite Hfirst' in Hfirst. injection Hfirst as <-.
    exists s'. split_and!; [exact Hrun|exact Hm|exact Hv].
Defined.

(** ** The status endpoints *)

(** X16. [GET /health] and [GET /model/info] never fail and always
    agree: health is ["healthy"] exactly when the info answer is
    ["loaded"], and it then carries the loader's own ["loaded"] report
    with its [model_info] and [last_loaded]; otherwise health is
    ["degraded"] and the info answer is ["no_model"]. *)
Theorem status_endpoints_agree model_loader :
  (∃ ml,
     model_loader = Some ml ∧ is_model_loaded ml = true ∧
     app.health_check model_loader
       = Ret (app.Health "healthy"
                "API e modelo estão funcionando corretamente") ∧
     app.get_model_info model_loader
       = Ret (app.ModelLoaded
                (LoadedInfo (model_info ml) (last_loaded ml))))
  ∨ (app.unavailable model_loader = true ∧
     app.health_check model_loader
       = Ret (app.Health "degraded"
                "API funcionando, mas modelo não carregado") ∧
     app.get_model_info model_loader
       = Ret (app.NoModelLoaded "Nenhum modelo carregado")).
Proof.
  unfold app.health_check, app.get_model_info, try_catch.
  destruct (app.unavailable model_loader) eqn:Hun; simpl; [by right|].
  destruct model_loader as [ml|]; [|done]. simpl in Hun.
  apply negb_false_iff in Hun. left. exists ml.
  unfold get_model_info. simpl. by rewrite Hun.
Qed.

(** ** Saving, then evaluating *)

Lemma save_each_contents E items d d' n model :
  NoDup items.*1 →
  train.save_each E items d = (Ret (), d') →
  (n, model) ∈ items →
  ∃ b, joblib_dump E (Some model) = Ret b ∧
       train.files_of d' !! (n +:+ ".joblib") = Some (File b).
Proof.
  revert d. induction items as [|[n' model'] rest IH]; intros d Hnd Hrun Hin.
  - by apply elem_of_nil in Hin.
  - simpl in Hnd. apply NoDup_cons in Hnd as [Hn' Hnd].
    simpl in Hrun. unfold train.dump in Hrun.
    destruct (joblib_dump E (Some model')) as [b|e] eqn:Hdump; [|done].
    apply elem_of_cons in Hin as [[= -> ->]|Hin].
    + exists b. split; [done|].
      rewrite (save_each_other _ _ _ _ _ _ Hrun).
      * simpl. by rewrite lookup_insert_eq.
      * intros k Hk Heq. apply app_suffix_inj in Heq. by subst k.
    + by apply (IH _ Hnd Hrun).
Qed.

(** X17. Saving and evaluating round-trip. After a [save_models] that
    returned, for every model of the trainer a [FakeNewsEvaluator] built
    on [<name>.joblib] and [vectorizer.joblib] holds exactly that model
    and the trainer's vectorizer, provided [joblib.load] inverts
    [joblib.dump] on the two objects and no model is named
    ["vectorizer"] (its file would replace the vectorizer's). *)
Theorem saved_artifacts_load_back E trainer d d' n model :
  train.save_models E trainer d = (Ret (), d') →
  NoDup (train.models trainer).*1 →
  "vectorizer" ∉ (train.models trainer).*1 →
  (n, model) ∈ train.models trainer →
  joblib_dump E (Some model) = Ret (Pickled (Some model)) →
  joblib_dump E (Some (train.vectorizer trainer))
    = Ret (Pickled (Some (train.vectorizer trainer))) →
  evaluate.init (train.files_of d') (n +:+ ".joblib") "vectorizer.joblib"
    = Ret (evaluate.Evaluator (Some model)
                              (Some (train.vectorizer trainer))).
Proof.
  intros Hsave Hnd Hname Hin Hdm Hdv.
  unfold train.save_models, train.makedirs, train.dump in Hsave.
  rewrite Hdv in Hsave.
  assert (∃ d1,
    train.save_each E (train.models trainer) d1 = (Ret (), d') ∧
    train.files_of d1 !! "vectorizer.joblib"
      = Some (File (Pickled (Some (train.vectorizer trainer)))))
    as (d1 & Hrun & Hvec).
  { destruct d as [| |files]; simpl in Hsave; [|done|];
      eexists; (split; [exact Hsave|]); simpl; by rewrite lookup_insert_eq. }
  destruct (save_each_contents _ _ _ _ _ _ Hnd Hrun Hin) as (b & Hb & Hfile).
  rewrite Hdm in Hb. injection Hb as <-.
  assert (Hvec' : train.files_of d' !! "vectorizer.joblib"
      = Some (File (Pickled (Some (train.vectorizer trainer))))).
  { rewrite (save_each_other _ _ _ _ _ "vectorizer.joblib" Hrun); [done|].
    intros k Hk Heq. apply (app_suffix_inj "vectorizer" k) in Heq.
    by subst k. }
  unfold evaluate.init, evaluate.load. by rewrite Hfile, Hvec'.
Qed.

(** The theorem at work: the forest of the toy trainer. *)
Lemma saved_artifacts_load_back_witness :
  evaluate.init
    (train.files_of
       (snd (train.save_models E_trained toy_trainer train.Absent)))
    "random_forest.joblib" "vectorizer.joblib"
  = Ret (evaluate.Evaluator (Some toy_forest) (Some toy_vectorizer)).
Proof.
  apply (saved_artifacts_load_back E_trained toy_trainer train.Absent
           (snd (train.save_models E_trained toy_trainer train.Absent))
           "random_forest" toy_forest).
  - vm_compute. reflexivity.
  - simpl. repeat constructor; intros Hin.
    + apply elem_of_cons in Hin as [Heq|Hin]; [discriminate Heq|].
      by apply elem_of_nil in Hin.
    + by apply elem_of_nil in Hin.
  - simpl. intros Hin.
    apply elem_of_cons in Hin as [Heq|Hin]; [discriminate Heq|].
    apply elem_of_cons in Hin as [Heq|Hin]; [discriminate Heq|].
    by apply elem_of_nil in Hin.
  - simpl. right. left.
  - reflexivity.
  - reflexivity.
Defined.
